(** * repo2prompt: a shallow embedding of [repo2prompt.py]

    The program clones a GitHub repository into a temporary directory,
    optionally narrows to a subdirectory, and runs the external
    [code2prompt] binary on it.  Everything it does is argument
    translation, process invocation and removal of the temporary
    directory, so the embedding is a state-and-exception monad over an
    explicit world (file system, the caller's output streams, and a
    trace of the operations performed), with the external programs and
    the library routines whose results the program only passes along
    ([json.loads], [json.dumps], name generation of [tempfile.mkdtemp])
    taken as an environment.  The environment also says where the
    surroundings fail the program: whether a temporary directory can be
    made, which entries of the disk resist removal, and whether the
    bytes a program wrote decode as text.

    Strings are Rocq [string]s, read as UTF-8 encoded text: every
    delimiter the program and [urllib.parse] look for is ASCII, and an
    ASCII byte never occurs inside a multi-byte sequence.  What an
    external program writes is a [string] of bytes until text mode has
    decoded it.  [os.path] is [posixpath]: the [Repo2Prompt] class is
    modelled as it runs on a POSIX platform. *)

From Stdlib Require Import String Ascii List ZArith Bool Lia DecimalString.
Import ListNotations.

Local Open Scope string_scope.
Local Open Scope Z_scope.

(** ** Python string primitives *)

Module Py.

(** [len(s)] *)
Definition len (s : string) : Z := Z.of_nat (String.length s).

(** [s[n:]] for a natural [n]. *)
Fixpoint drop (n : nat) (s : string) : string :=
  match n, s with
  | O, _ => s
  | S _, EmptyString => EmptyString
  | S n', String _ s' => drop n' s'
  end.

(** [s[:n]] for a natural [n]. *)
Fixpoint take (n : nat) (s : string) : string :=
  match n, s with
  | O, _ => EmptyString
  | S _, EmptyString => EmptyString
  | S n', String c s' => String c (take n' s')
  end.

(** [s[lo:hi]] with non-negative bounds, the only slices the modelled
    code takes. *)
Definition slice (s : string) (lo hi : Z) : string :=
  take (Z.to_nat (hi - lo)) (drop (Z.to_nat lo) s).

(** Offset of the first occurrence of [c] in [s]. *)
Fixpoint index_of (c : ascii) (s : string) : option nat :=
  match s with
  | EmptyString => None
  | String d s' =>
      if Ascii.eqb c d then Some O
      else match index_of c s' with
           | Some k => Some (S k)
           | None => None
           end
  end.

(** [s.find(c, start)]: the lowest index at or after [start] where the
    character [c] occurs, [-1] when there is none. *)
Definition find (c : ascii) (start : Z) (s : string) : Z :=
  match index_of c (drop (Z.to_nat start) s) with
  | Some k => start + Z.of_nat k
  | None => -1
  end.

(** [c in s] for a one-character [c]. *)
Definition contains (c : ascii) (s : string) : bool :=
  match index_of c s with Some _ => true | None => false end.

(** [s.lstrip(chars)], with the character set as a predicate. *)
Fixpoint lstrip (p : ascii -> bool) (s : string) : string :=
  match s with
  | EmptyString => EmptyString
  | String c s' => if p c then lstrip p s' else s
  end.

(** [s.replace(c, "")] for a one-character [c], generalised to a
    predicate so that successive replacements are one pass. *)
Fixpoint remove (p : ascii -> bool) (s : string) : string :=
  match s with
  | EmptyString => EmptyString
  | String c s' => if p c then remove p s' else String c (remove p s')
  end.

Fixpoint forallb (p : ascii -> bool) (s : string) : bool :=
  match s with
  | EmptyString => true
  | String c s' => p c && forallb p s'
  end.

Definition code (c : ascii) : N := N_of_ascii c.

Definition is_upper (c : ascii) : bool := ((65 <=? code c) && (code c <=? 90))%N.
Definition is_lower (c : ascii) : bool := ((97 <=? code c) && (code c <=? 122))%N.
Definition is_digit (c : ascii) : bool := ((48 <=? code c) && (code c <=? 57))%N.

(** [c.isascii()] *)
Definition isascii_char (c : ascii) : bool := (code c <? 128)%N.

(** [c.isascii() and c.isalpha()] *)
Definition is_ascii_alpha (c : ascii) : bool := is_upper c || is_lower c.

(** [s.isascii()] *)
Definition isascii (s : string) : bool := forallb isascii_char s.

Definition lower_char (c : ascii) : ascii :=
  if is_upper c then ascii_of_N (code c + 32) else c.

(** [s.lower()] on ASCII letters (other bytes are left alone). *)
Fixpoint lower (s : string) : string :=
  match s with
  | EmptyString => EmptyString
  | String c s' => String (lower_char c) (lower s')
  end.

(** [s.partition(c)]: text before the first [c], whether [c] was
    found, text after it. *)
Definition partition (c : ascii) (s : string) : string * bool * string :=
  match index_of c s with
  | Some k => (take k s, true, drop (S k) s)
  | None => (s, false, EmptyString)
  end.

(** Offset of the last occurrence of [c] in [s]. *)
Fixpoint rindex_of (c : ascii) (s : string) : option nat :=
  match s with
  | EmptyString => None
  | String d s' =>
      match rindex_of c s' with
      | Some k => Some (S k)
      | None => if Ascii.eqb c d then Some O else None
      end
  end.

(** [s.rpartition(c)]: text before the last [c], whether [c] was
    found, text after it; an absent [c] puts the whole text last. *)
Definition rpartition (c : ascii) (s : string) : string * bool * string :=
  match rindex_of c s with
  | Some k => (take k s, true, drop (S k) s)
  | None => (EmptyString, false, s)
  end.

(** [sep.join(l)] *)
Fixpoint join (sep : string) (l : list string) : string :=
  match l with
  | [] => EmptyString
  | [x] => x
  | x :: (_ :: _) as rest => x ++ sep ++ join sep rest
  end.

(** [s.split(c)] for a one-character separator: never empty, one more
    field than there are separators. *)
Fixpoint split (c : ascii) (s : string) : list string :=
  match s with
  | EmptyString => [EmptyString]
  | String d s' =>
      if Ascii.eqb c d then EmptyString :: split c s'
      else match split c s' with
           | [] => [String d EmptyString]
           | f :: fs => String d f :: fs
           end
  end.

(** Truth value of an [Optional[str]]: [None] and [""] are false. *)
Definition truthy_str (o : option string) : bool :=
  match o with
  | None => false
  | Some s => negb (String.eqb s "")
  end.

(** Truth value of an [Optional[List[str]]]: [None] and [[]] are false. *)
Definition truthy_list (o : option (list string)) : bool :=
  match o with
  | None | Some [] => false
  | Some (_ :: _) => true
  end.

(** The text an f-string puts for an [Optional[str]] field. *)
Definition fmt (o : option string) : string :=
  match o with
  | None => "None"
  | Some s => s
  end.

End Py.

(** ** Exceptions and results *)

(** The exception classes the program raises or lets through.
    [JSONDecodeError] and [UnicodeDecodeError] are subclasses of
    [ValueError], [RecursionError] is a subclass of [RuntimeError];
    [OSError] stands for [FileNotFoundError] and its siblings, raised
    when a program cannot be started or a directory cannot be made;
    [CalledProcessError] is what [subprocess.run] raises under
    [check=True] on a non-zero return code. *)
Inductive exn : Type :=
| ValueError (msg : string)
| JSONDecodeError (msg : string)
| UnicodeDecodeError (msg : string)
| RuntimeError (msg : string)
| RecursionError (msg : string)
| CalledProcessError (returncode : Z) (cmd : list string)
                     (output stderr : option string)
| OSError (msg : string)
| TypeError (msg : string).



Inductive result (A : Type) : Type :=
| Ok (a : A)
| Raise (e : exn).

Arguments Ok {A} a.
Arguments Raise {A} e.

Definition rbind {A B} (r : result A) (k : A -> result B) : result B :=
  match r with
  | Ok a => k a
  | Raise e => Raise e
  end.

(** ** JSON values, as [json.loads] returns them *)

#[warnings="-register-all"]
Inductive json : Type :=
| JNull
| JBool (b : bool)
| JNumber (literal : string)
| JString (s : string)
| JArray (items : list json)
| JObject (members : list (string * json)).

(** What [json.loads] makes of a text: the parsed value, or one of the
    exceptions the decoder raises.  Text that is not a JSON document
    gives a [JSONDecodeError]; a document nested deeper than the
    interpreter's recursion limit gives a [RecursionError]; an integer
    literal longer than the interpreter's digit limit gives a plain
    [ValueError]. *)
Inductive decoding : Type :=
| Parsed (v : json)
| NotJson (msg : string)
| TooDeep (msg : string)
| BadNumber (msg : string).

(** ** The environment: external programs and library oracles *)

(** What running an external program comes to: either it could not be
    started, or it exited with a return code, having written the bytes
    [out] and [err] and left the file system as [fs_after]. *)
Inductive outcome : Type :=
| NotStarted (msg : string)
| Exited (returncode : Z) (out err : string) (fs_after : string -> bool).

Record Env : Type := {
  (** [unicodedata.normalize('NFKC', s)] *)
  nfkc : string -> string;
  (** [urllib.parse._check_bracketed_host]: the message of the
      [ValueError] it raises, if it raises. *)
  bracketed_host_error : string -> option string;
  (** [tempfile.gettempdir()] *)
  gettempdir : string;
  (** the candidate name [tempfile.mkdtemp] settles on *)
  candidate_name : (string -> bool) -> string;
  (** the message of the [OSError] with which [tempfile.mkdtemp] fails
      on this disk (no usable temporary directory, no space, no
      permission), if it fails *)
  mkdtemp_error : (string -> bool) -> option string;
  (** the entries of this disk that [shutil.rmtree] fails to remove
      (protected or in use; on a real disk a directory is among them
      whenever something beneath it is) *)
  resists_removal : (string -> bool) -> string -> bool;
  (** strict decoding of captured bytes in text mode, in the locale's
      encoding and with line endings translated: the text, or the
      message of the [UnicodeDecodeError] *)
  text_decode : string -> string + string;
  (** behaviour of the external programs ([git], [code2prompt]) on an
      argument vector and a file system; the network is folded in. *)
  spawn : list string -> (string -> bool) -> outcome;
  (** [json.loads] *)
  json_loads : string -> decoding;
  (** [json.dumps(v, indent=2)] *)
  json_dumps : json -> string
}.

(** ** [urllib.parse] (CPython 3.12), as far as [netloc] goes *)

Module Urllib.

(** [_WHATWG_C0_CONTROL_OR_SPACE]: code points 0x00 to 0x20. *)
Definition c0_control_or_space (c : ascii) : bool := (Py.code c <=? 32)%N.

(** [_UNSAFE_URL_BYTES_TO_REMOVE = ['\t', '\r', '\n']] *)
Definition unsafe_url_byte (c : ascii) : bool :=
  ((Py.code c =? 9) || (Py.code c =? 13) || (Py.code c =? 10))%N.

(** [scheme_chars]: ASCII letters, digits, and [+-.] *)
Definition scheme_char (c : ascii) : bool :=
  Py.is_ascii_alpha c || Py.is_digit c
  || Ascii.eqb c "+" || Ascii.eqb c "-" || Ascii.eqb c ".".

Record SplitResult : Type := {
  scheme : string;
  netloc : string;
  path : string;
  query : string;
  fragment : string
}.

(** [_splitnetloc(url, start)]: the earliest of [/], [?], [#] at or
    after [start] ends the domain part. *)
Definition _splitnetloc (url : string) (start : Z) : string * string :=
  let delim :=
    fold_left
      (fun delim c =>
         let wdelim := Py.find c start url in
         if 0 <=? wdelim then Z.min delim wdelim else delim)
      ["/"; "?"; "#"]%char (Py.len url) in
  (Py.slice url start delim, Py.drop (Z.to_nat delim) url).

(** [_checknetloc(netloc)] *)
Definition _checknetloc (E : Env) (netloc : string) : result unit :=
  if String.eqb netloc "" || Py.isascii netloc then Ok tt
  else
    let n := Py.remove (fun c => Ascii.eqb c "@" || Ascii.eqb c ":"
                                 || Ascii.eqb c "#" || Ascii.eqb c "?")
                       netloc in
    let netloc2 := nfkc E n in
    if String.eqb n netloc2 then Ok tt
    else if existsb (fun c => Py.contains c netloc2) ["/"; "?"; "#"; "@"; ":"]%char
         then Raise (ValueError ("netloc '" ++ netloc ++ "' contains invalid "
                                 ++ "characters under NFKC normalization"))
         else Ok tt.

(** The scheme test of [urlsplit]: a colon at a positive index, a
    leading ASCII letter, and only scheme characters before the
    colon. *)
Definition split_scheme (url : string) : string * string :=
  let i := Py.find ":" 0 url in
  match url with
  | String c0 _ =>
      if (0 <? i) && Py.is_ascii_alpha c0
         && Py.forallb scheme_char (Py.slice url 0 i)
      then (Py.lower (Py.slice url 0 i), Py.drop (Z.to_nat (i + 1)) url)
      else (EmptyString, url)
  | EmptyString => (EmptyString, url)
  end.

(** [urlsplit(url)] with the default [scheme=''] and
    [allow_fragments=True]. *)
Definition urlsplit (E : Env) (url : string) : result SplitResult :=
  let url := Py.lstrip c0_control_or_space url in
  let url := Py.remove unsafe_url_byte url in
  let '(scheme, url) := split_scheme url in
  rbind
    (if String.eqb (Py.take 2 url) "//" then
       let '(netloc, url) := _splitnetloc url 2 in
       let has_open := Py.contains "[" netloc in
       let has_close := Py.contains "]" netloc in
       if (has_open && negb has_close) || (has_close && negb has_open)
       then Raise (ValueError "Invalid IPv6 URL")
       else if has_open && has_close then
         let bracketed_host :=
           fst (fst (Py.partition "]" (snd (Py.partition "[" netloc)))) in
         match bracketed_host_error E bracketed_host with
         | Some msg => Raise (ValueError msg)
         | None => Ok (netloc, url)
         end
       else Ok (netloc, url)
     else Ok (EmptyString, url))
    (fun '(netloc, url) =>
       let '(url, fragment) :=
         if Py.contains "#" url
         then let '(a, _, b) := Py.partition "#" url in (a, b)
         else (url, EmptyString) in
       let '(url, query) :=
         if Py.contains "?" url
         then let '(a, _, b) := Py.partition "?" url in (a, b)
         else (url, EmptyString) in
       rbind (_checknetloc E netloc)
         (fun _ => Ok {| scheme := scheme; netloc := netloc; path := url;
                         query := query; fragment := fragment |})).

(** [urlparse(url)]: [urlsplit] followed by a split of the path
    parameters, which leaves [netloc] as it is. *)
Definition urlparse (E : Env) (url : string) : result SplitResult :=
  urlsplit E url.

(** The [hostname] property of a parse result: the authority with
    user information and port taken off, lower-cased (a zone
    identifier after [%] keeps its case); [None] when empty. *)
Definition hostname (r : SplitResult) : option string :=
  let '(_, _, hostinfo) := Py.rpartition "@" (netloc r) in
  let '(_, have_open_br, bracketed) := Py.partition "[" hostinfo in
  let hostname :=
    if have_open_br then fst (fst (Py.partition "]" bracketed))
    else fst (fst (Py.partition ":" hostinfo)) in
  if String.eqb hostname "" then None
  else
    let '(h, percent, zone) := Py.partition "%" hostname in
    Some (Py.lower h ++ (if percent then "%" else "") ++ zone).

End Urllib.

(** ** [os.path] (POSIX flavour) *)

(** [os.path] is [posixpath] here: the model follows the program on a
    POSIX platform, where the separator is [/] and a second component
    that starts with it is absolute. *)

Module OsPath.

Definition sep : string := "/".

Definition startswith_sep (s : string) : bool :=
  match s with
  | String c _ => Ascii.eqb c "/"
  | EmptyString => false
  end.

Fixpoint endswith_sep (s : string) : bool :=
  match s with
  | EmptyString => false
  | String c EmptyString => Ascii.eqb c "/"
  | String _ s' => endswith_sep s'
  end.

(** [os.path.join(a, b)] *)
Definition join (a b : string) : string :=
  if startswith_sep b || String.eqb a "" then b
  else if endswith_sep a then a ++ b
  else a ++ sep ++ b.

End OsPath.

(** ** The world and the monad of the program *)

(** What the program does to its surroundings, in the order it does it. *)
Inductive event : Type :=
| EvMkdtemp (path : string)
| EvRun (argv : list string) (capture_output : bool)
| EvExists (path : string)
| EvRmtree (path : string)
| EvPrint (text : string).

(** The file system is the set of path names that exist (names are
    compared as written: no [.], [..] or link resolution); [out_stream]
    and [err_stream] are what has reached the caller's standard output
    and standard error. *)
Record World : Type := {
  fs : string -> bool;
  out_stream : string;
  err_stream : string;
  trace : list event
}.

(** An instance of [class Repo2Prompt]. *)
Record Repo2Prompt : Type := {
  temp_dir : option string
}.

Record Machine : Type := {
  self : Repo2Prompt;
  world : World
}.

(** A computation runs on a machine and ends in a value or a raised
    exception; effects done before a [raise] stay done. *)
Definition M (A : Type) : Type := Machine -> result A * Machine.

Definition ret {A} (a : A) : M A := fun m => (Ok a, m).

Definition raise {A} (e : exn) : M A := fun m => (Raise e, m).

Definition bind {A B} (c : M A) (k : A -> M B) : M B :=
  fun m =>
    match c m with
    | (Ok a, m') => k a m'
    | (Raise e, m') => (Raise e, m')
    end.

(** [try: c  except ...: h e], the handler re-raising what it does not
    catch. *)
Definition try_except {A} (c : M A) (h : exn -> M A) : M A :=
  fun m =>
    match c m with
    | (Ok a, m') => (Ok a, m')
    | (Raise e, m') => h e m'
    end.

Definition lift {A} (r : result A) : M A := fun m => (r, m).

Declare Scope prog_scope.
Delimit Scope prog_scope with prog.
Notation "x <- c ;; k" := (bind c (fun x => k))
  (at level 61, c at next level, right associativity) : prog_scope.
Notation "c ;; k" := (bind c (fun _ => k))
  (at level 61, right associativity) : prog_scope.
Local Open Scope prog_scope.

Definition log (ev : event) (w : World) : World :=
  {| fs := fs w; out_stream := out_stream w; err_stream := err_stream w;
     trace := (trace w ++ [ev])%list |}.

Definition with_fs (f : string -> bool) (w : World) : World :=
  {| fs := f; out_stream := out_stream w; err_stream := err_stream w;
     trace := trace w |}.

Definition on_world (f : World -> World) : M unit :=
  fun m => (Ok tt, {| self := self m; world := f (world m) |}).

(** [self.temp_dir = p] *)
Definition set_temp_dir (p : string) : M unit :=
  fun m => (Ok tt, {| self := {| temp_dir := Some p |}; world := world m |}).

(** ** File-system and process primitives *)

Module Fs.

Definition mkdir (p : string) (f : string -> bool) : string -> bool :=
  fun q => String.eqb q p || f q.

(** [q] is the directory [p] or lies beneath it. *)
Definition beneath (p q : string) : bool :=
  String.eqb q p || String.prefix (p ++ OsPath.sep) q.

(** Removal of the tree at [p] as far as it goes: what lies outside
    the tree stays, and inside it what resists. *)
Definition remove_tree (resists : string -> bool) (p : string)
                       (f : string -> bool) : string -> bool :=
  fun q => f q && (negb (beneath p q) || resists q).

End Fs.

Section Program.

Variable E : Env.

(** [tempfile.mkdtemp(prefix=prefix)]: makes the directory
    [gettempdir()/prefix<name>] and returns its path, or raises the
    [OSError] of a disk on which no directory can be made.  The loop
    over candidate names is folded into the environment's choice. *)
Definition mkdtemp (prefix : string) : M string :=
  fun m =>
    let w := world m in
    match mkdtemp_error E (fs w) with
    | Some msg => (Raise (OSError msg), m)
    | None =>
        let file :=
          OsPath.join (gettempdir E) (prefix ++ candidate_name E (fs w)) in
        (Ok file,
         {| self := self m;
            world := log (EvMkdtemp file) (with_fs (Fs.mkdir file (fs w)) w) |})
    end.

(** [os.path.exists(p)] *)
Definition exists_ (p : string) : M bool :=
  fun m =>
    (Ok (fs (world m) p),
     {| self := self m; world := log (EvExists p) (world m) |}).

(** [shutil.rmtree(p, ignore_errors=True)]: best effort.  What resists
    removal is left on the disk and the error is swallowed; the call
    never raises. *)
Definition rmtree (p : string) : M unit :=
  on_world (fun w =>
    log (EvRmtree p)
      (with_fs (Fs.remove_tree (resists_removal E (fs w)) p (fs w)) w)).

(** [print(text)] *)
Definition print (text : string) : M unit :=
  on_world (fun w =>
    log (EvPrint text)
      {| fs := fs w;
         out_stream := out_stream w ++ text ++ String "010" EmptyString;
         err_stream := err_stream w; trace := trace w |}).

Record CompletedProcess : Type := {
  returncode : Z;
  stdout : option string;
  stderr : option string
}.

(** Text mode on captured output: once the program has exited,
    [Popen.communicate] decodes what it wrote to standard output, then
    what it wrote to standard error; the [UnicodeDecodeError] of
    either leaves [subprocess.run] at once. *)
Definition communicate_text (out err : string) : result (string * string) :=
  match text_decode E out with
  | inr msg => Raise (UnicodeDecodeError msg)
  | inl o =>
      match text_decode E err with
      | inr msg => Raise (UnicodeDecodeError msg)
      | inl e => Ok (o, e)
      end
  end.

(** [subprocess.run(cmd, check=True, capture_output=c, text=True)].
    With [capture_output] the program's output is decoded and comes
    back in the result (or in the [CalledProcessError]), the return
    code being looked at after the decoding; without it the output
    goes to the caller's own streams as written and the fields are
    [None]. *)
Definition subprocess_run (cmd : list string) (capture_output : bool)
  : M CompletedProcess :=
  fun m =>
    let w := world m in
    match spawn E cmd (fs w) with
    | NotStarted msg =>
        (Raise (OSError msg),
         {| self := self m; world := log (EvRun cmd capture_output) w |})
    | Exited rc out err fs' =>
        let w' :=
          log (EvRun cmd capture_output)
            {| fs := fs';
               out_stream := if capture_output then out_stream w
                             else out_stream w ++ out;
               err_stream := if capture_output then err_stream w
                             else err_stream w ++ err;
               trace := trace w |} in
        let m' := {| self := self m; world := w' |} in
        if capture_output then
          match communicate_text out err with
          | Raise e => (Raise e, m')
          | Ok (o, e) =>
              if rc =? 0
              then (Ok {| returncode := rc; stdout := Some o;
                          stderr := Some e |}, m')
              else (Raise (CalledProcessError rc cmd (Some o) (Some e)), m')
          end
        else
          if rc =? 0
          then (Ok {| returncode := rc; stdout := None; stderr := None |}, m')
          else (Raise (CalledProcessError rc cmd None None), m')
    end.

(** ** [class Repo2Prompt] *)

(** [Repo2Prompt()] *)
Definition __init__ : Repo2Prompt := {| temp_dir := None |}.

(** [__exit__]: remove the temporary directory, as far as it can be
    removed, if one was assigned. *)
Definition __exit__ : M unit :=
  fun m =>
    match temp_dir (self m) with
    | Some d => if Py.truthy_str (Some d) then rmtree d m else (Ok tt, m)
    | None => (Ok tt, m)
    end.

Definition _validate_github_url (url : string) : result bool :=
  rbind (Urllib.urlparse E url)
    (fun parsed_url =>
       Ok (existsb (String.eqb (Urllib.netloc parsed_url))
             ["github.com"; "www.github.com"])).

(** The [git] command of [_clone_repository] (source lines 126 to
    130) for the temporary directory [d]. *)
Definition clone_cmd (url : string) (branch : option string) (d : string)
  : list string :=
  let cmd := ["git"; "clone"] in
  let cmd :=
    match branch with
    | Some b => if Py.truthy_str branch then (cmd ++ ["--branch"; b])%list else cmd
    | None => cmd
    end in
  (cmd ++ [url; d])%list.

Definition _clone_repository (url : string) (branch : option string)
  : M string :=
  d <- mkdtemp "repo2prompt_" ;;
  set_temp_dir d ;;
  let cmd := clone_cmd url branch d in
  try_except
    (subprocess_run cmd true ;; ret d)
    (fun e =>
       match e with
       | CalledProcessError _ _ _ err =>
           raise (RuntimeError ("Failed to clone repository: " ++ Py.fmt err))
       | _ => raise e
       end).

Definition _get_subdirectory_path (base_dir : string)
                                  (subdirectory : option string)
  : M string :=
  match subdirectory with
  | None => ret base_dir
  | Some sub =>
      if negb (Py.truthy_str subdirectory) then ret base_dir
      else
        let full_path := OsPath.join base_dir sub in
        present <- exists_ full_path ;;
        if negb present
        then raise (ValueError ("Subdirectory '" ++ sub
                                ++ "' does not exist in the repository"))
        else ret full_path
  end.

(** The keyword arguments of [_run_code2prompt] after [directory]. *)
Record Options : Type := {
  template : option string;
  include : option (list string);
  exclude : option (list string);
  count_tokens : bool;
  encoding : option string;
  output : option string;
  output_format : option string;
  diff : bool;
  line_number : bool;
  no_codeblock : bool;
  hidden : bool;
  no_ignore : bool;
  git_diff_branch : option string;
  git_log_branch : option string
}.

(** [if v: cmd.extend([flag, v])] *)
Definition extend_str (flag : string) (v : option string) : list string :=
  match v with
  | Some s => if Py.truthy_str v then [flag; s] else []
  | None => []
  end.

(** [if l: cmd.extend([flag, ",".join(l)])] *)
Definition extend_globs (flag : string) (l : option (list string))
  : list string :=
  match l with
  | Some globs => if Py.truthy_list l then [flag; Py.join "," globs] else []
  | None => []
  end.

(** [if b: cmd.append(flag)] *)
Definition append_if (flag : string) (b : bool) : list string :=
  if b then [flag] else [].

(** The command as it stands after the optional arguments have been
    added (source lines 166 to 211). *)
Definition base_cmd (directory : string) (o : Options) : list string :=
  (["code2prompt"; directory]
  ++ extend_str "--template" (template o)
  ++ extend_globs "--include" (include o)
  ++ extend_globs "--exclude" (exclude o)
  ++ append_if "--tokens" (count_tokens o)
  ++ extend_str "--encoding" (encoding o)
  ++ extend_str "--output" (output o)
  ++ extend_str "-O" (output_format o)
  ++ append_if "--diff" (diff o)
  ++ append_if "--line-number" (line_number o)
  ++ append_if "--no-codeblock" (no_codeblock o)
  ++ append_if "--hidden" (hidden o)
  ++ append_if "--no-ignore" (no_ignore o)
  ++ extend_str "--git-diff-branch" (git_diff_branch o)
  ++ extend_str "--git-log-branch" (git_log_branch o))%list.

(** [output_format == "json"] *)
Definition wants_json (o : Options) : bool :=
  match output_format o with
  | Some f => String.eqb f "json"
  | None => false
  end.

(** The argument vector handed to [subprocess.run]: in the JSON
    branch the command is extended once more (source line 217). *)
Definition final_cmd (directory : string) (o : Options) : list string :=
  if wants_json o then (base_cmd directory o ++ ["-O"; "json"])%list
  else base_cmd directory o.

(** [{"status": "success"}] *)
Definition success_marker : json := JObject [("status", JString "success")].

(** What [json.loads(s)] returns or raises. *)
Definition json_loads_result (s : string) : result json :=
  match json_loads E s with
  | Parsed v => Ok v
  | NotJson msg => Raise (JSONDecodeError msg)
  | TooDeep msg => Raise (RecursionError msg)
  | BadNumber msg => Raise (ValueError msg)
  end.

(** [json.loads(text)] on the captured output. *)
Definition loads (text : option string) : M json :=
  match text with
  | Some s => lift (json_loads_result s)
  | None =>
      raise (TypeError
               "the JSON object must be str, bytes or bytearray, not NoneType")
  end.

Definition _run_code2prompt (directory : string) (o : Options) : M json :=
  let cmd := base_cmd directory o in
  try_except
    (if wants_json o then
       let cmd := (cmd ++ ["-O"; "json"])%list in
       result <- subprocess_run cmd true ;;
       loads (stdout result)
     else
       subprocess_run cmd false ;;
       ret success_marker)
    (fun e =>
       match e with
       | CalledProcessError _ _ _ err =>
           raise (RuntimeError ("Failed to run code2prompt: " ++ Py.fmt err))
       | _ => raise e
       end).

Definition generate_prompt (github_url : string)
                           (subdirectory branch : option string)
                           (o : Options) : M json :=
  valid <- lift (_validate_github_url github_url) ;;
  if negb valid
  then raise (ValueError ("Invalid GitHub repository URL: " ++ github_url))
  else
    repo_dir <- _clone_repository github_url branch ;;
    target_dir <- _get_subdirectory_path repo_dir subdirectory ;;
    _run_code2prompt target_dir o.

(** ** The scope in [main] *)

(** [with Repo2Prompt() as r2p: body]: [__enter__] hands back the
    object, [__exit__] runs however [body] ends and, returning
    [None], lets an exception through. *)
Definition with_Repo2Prompt {A} (body : M A) (w : World) : result A * World :=
  let '(r, m1) := body {| self := __init__; world := w |} in
  let '(_, m2) := __exit__ m1 in
  (r, world m2).

(** The body of the [with] statement of [main] (source lines 346 to
    368): generate, then print the result when JSON was asked for. *)
Definition main_body (github_url : string)
                     (subdirectory branch : option string)
                     (o : Options) : M json :=
  result <- generate_prompt github_url subdirectory branch o ;;
  (if wants_json o then print (json_dumps E result) else ret tt) ;;
  ret result.

(** [args.include.split(',') if args.include else None] (source lines
    341 and 342, and the same for [exclude]). *)
Definition split_globs (arg : option string) : option (list string) :=
  match arg with
  | Some s => if Py.truthy_str arg then Some (Py.split "," s) else None
  | None => None
  end.

(** One generation request, as [main] runs it. *)
Definition scoped_generate (github_url : string)
                           (subdirectory branch : option string)
                           (o : Options) (w : World) : result json * World :=
  with_Repo2Prompt (main_body github_url subdirectory branch o) w.

End Program.

(** ** Auxiliary definitions for the statements *)

(** The path [mkdtemp] creates for [_clone_repository] in world [w]. *)
Definition temp_path (E : Env) (w : World) : string :=
  OsPath.join (gettempdir E) ("repo2prompt_" ++ candidate_name E (fs w)).

(** The options with every argument at its default. *)
Definition no_options : Options :=
  {| template := None; include := None; exclude := None;
     count_tokens := false; encoding := None; output := None;
     output_format := None; diff := false; line_number := false;
     no_codeblock := false; hidden := false; no_ignore := false;
     git_diff_branch := None; git_log_branch := None |}.

Definition with_include (l : option (list string)) (o : Options) : Options :=
  {| template := template o; include := l; exclude := exclude o;
     count_tokens := count_tokens o; encoding := encoding o;
     output := output o; output_format := output_format o; diff := diff o;
     line_number := line_number o; no_codeblock := no_codeblock o;
     hidden := hidden o; no_ignore := no_ignore o;
     git_diff_branch := git_diff_branch o;
     git_log_branch := git_log_branch o |}.

Definition with_exclude (l : option (list string)) (o : Options) : Options :=
  {| template := template o; include := include o; exclude := l;
     count_tokens := count_tokens o; encoding := encoding o;
     output := output o; output_format := output_format o; diff := diff o;
     line_number := line_number o; no_codeblock := no_codeblock o;
     hidden := hidden o; no_ignore := no_ignore o;
     git_diff_branch := git_diff_branch o;
     git_log_branch := git_log_branch o |}.

Definition with_output_format (f : option string) (o : Options) : Options :=
  {| template := template o; include := include o; exclude := exclude o;
     count_tokens := count_tokens o; encoding := encoding o;
     output := output o; output_format := f; diff := diff o;
     line_number := line_number o; no_codeblock := no_codeblock o;
     hidden := hidden o; no_ignore := no_ignore o;
     git_diff_branch := git_diff_branch o;
     git_log_branch := git_log_branch o |}.

(** The specification's reading of a URL "whose host is [github.com] or
    [www.github.com]": the string parses and the [hostname] of the
    parse result is one of the two names. *)
Definition host_is_github (E : Env) (url : string) : bool :=
  match Urllib.urlparse E url with
  | Ok r =>
      match Urllib.hostname r with
      | Some h => String.eqb h "github.com" || String.eqb h "www.github.com"
      | None => false
      end
  | Raise _ => false
  end.

(** The authority of a URL read structurally: after the optional scheme,
    the text between a leading [//] and the first [/], [?] or [#]. *)
Definition is_delim (c : ascii) : bool :=
  Ascii.eqb c "/" || Ascii.eqb c "?" || Ascii.eqb c "#".

Fixpoint authority_len (s : string) : nat :=
  match s with
  | EmptyString => O
  | String c s' => if is_delim c then O else S (authority_len s')
  end.

(** The URL as [urlsplit] cleans it: leading control characters and
    spaces stripped, tabs and line breaks removed throughout. *)
Definition cleaned (url : string) : string :=
  Py.remove Urllib.unsafe_url_byte (Py.lstrip Urllib.c0_control_or_space url).

(** What is left of the cleaned URL once a scheme has been taken off. *)
Definition after_scheme (url : string) : string :=
  snd (Urllib.split_scheme (cleaned url)).

Definition authority (url : string) : option string :=
  let u := after_scheme url in
  if String.eqb (Py.take 2 u) "//"
  then Some (Py.take (authority_len (Py.drop 2 u)) (Py.drop 2 u))
  else None.

(** How often the adjacent pair [a b] occurs in an argument vector. *)
Fixpoint count_pair (a b : string) (l : list string) : nat :=
  match l with
  | x :: (y :: _) as rest =>
      ((if String.eqb x a && String.eqb y b then 1 else 0)
       + count_pair a b rest)%nat
  | _ => O
  end.

(** No element of the list contains the character [c]. *)
Definition free_of (c : ascii) (l : list string) : Prop :=
  Forall (fun s => Py.contains c s = false) l.

(** The existence check [_get_subdirectory_path] makes on a root, if
    it makes one. *)
Definition subdirectory_check (base_dir : string)
                              (subdirectory : option string) : list event :=
  match subdirectory with
  | Some sub =>
      if Py.truthy_str subdirectory then [EvExists (OsPath.join base_dir sub)]
      else []
  | None => []
  end.

(** The world right after [mkdtemp] has made the directory. *)
Definition after_mkdtemp (E : Env) (w : World) : World :=
  log (EvMkdtemp (temp_path E w))
    (with_fs (Fs.mkdir (temp_path E w) (fs w)) w).

(** The world after an external program has run. *)
Definition after_run (cmd : list string) (capture : bool)
           (out err : string) (f : string -> bool) (w : World) : World :=
  log (EvRun cmd capture)
    {| fs := f;
       out_stream := if capture then out_stream w else out_stream w ++ out;
       err_stream := if capture then err_stream w else err_stream w ++ err;
       trace := trace w |}.

(** ** A concrete environment for worked runs *)

Module Demo.

Definition quote : string := String "034" EmptyString.

Definition newline : string := String "010" EmptyString.

(** The text [{"status": "success"}]. *)
Definition status_text : string :=
  "{" ++ quote ++ "status" ++ quote ++ ": "
      ++ quote ++ "success" ++ quote ++ "}".

(** A [json.loads] that knows two documents and rejects the rest the
    way the library rejects text that does not start a value. *)
Definition parse (s : string) : decoding :=
  if String.eqb s status_text then Parsed success_marker
  else if String.eqb s "[1, 2]" then Parsed (JArray [JNumber "1"; JNumber "2"])
  else NotJson "Expecting value: line 1 column 1 (char 0)".

(** Line endings as text mode translates them. *)
Fixpoint universal_newlines (s : string) : string :=
  match s with
  | EmptyString => EmptyString
  | String c s' =>
      if Ascii.eqb c "013" then
        String "010"
          match s' with
          | String d r =>
              if Ascii.eqb d "010" then universal_newlines r
              else universal_newlines s'
          | EmptyString => EmptyString
          end
      else String c (universal_newlines s')
  end.

(** A decoder for UTF-8 that rejects the byte [0xff], which no UTF-8
    text holds, and takes the rest as it comes. *)
Definition decode (s : string) : string + string :=
  match Py.index_of "255" s with
  | Some n =>
      inr ("'utf-8' codec can't decode byte 0xff in position "
           ++ NilEmpty.string_of_uint (Nat.to_uint n)
           ++ ": invalid start byte")
  | None => inl (universal_newlines s)
  end.

(** A [json.dumps(v, indent=2)] for one-member objects with a string
    value; other values are not needed in the worked runs. *)
Definition dumps (v : json) : string :=
  match v with
  | JObject [(k, JString s)] =>
      "{" ++ newline ++ "  " ++ quote ++ k ++ quote ++ ": "
          ++ quote ++ s ++ quote ++ newline ++ "}"
  | _ => "null"
  end.

Definition last_arg (argv : list string) : string := last argv "".

(** [git] exits with [git_rc]; when that is zero it has put a [README.md]
    and a [src] directory into the target (its last argument).
    [code2prompt] exits with [gen_rc] after writing [gen_out] and
    [gen_err]. *)
Definition programs (git_rc gen_rc : Z) (gen_out gen_err : string)
                    (argv : list string) (f : string -> bool) : outcome :=
  match argv with
  | prog :: _ =>
      if String.eqb prog "git" then
        let d := last_arg argv in
        if git_rc =? 0 then
          Exited 0 "" ""
            (fun q => String.eqb q (d ++ "/README.md")
                      || String.eqb q (d ++ "/src") || f q)
        else Exited git_rc "" "fatal: repository not found" f
      else if String.eqb prog "code2prompt" then
        Exited gen_rc gen_out gen_err f
      else NotStarted "No such file or directory"
  | [] => NotStarted "No such file or directory"
  end.

(** An environment around given programs: a disk with room on which
    nothing resists removal. *)
Definition around (progs : list string -> (string -> bool) -> outcome) : Env :=
  {| nfkc := fun s => s;
     bracketed_host_error := fun _ => None;
     gettempdir := "/tmp";
     candidate_name := fun _ => "k3x9w2ab";
     mkdtemp_error := fun _ => None;
     resists_removal := fun _ _ => false;
     text_decode := decode;
     spawn := progs;
     json_loads := parse;
     json_dumps := dumps |}.

Definition env (git_rc gen_rc : Z) (gen_out gen_err : string) : Env :=
  around (programs git_rc gen_rc gen_out gen_err).



(** A disk on which the clone's [README.md] is held by another program:
    neither the file nor the directory above it can be removed. *)
Definition busy : Env :=
  {| nfkc := fun s => s;
     bracketed_host_error := fun _ => None;
     gettempdir := "/tmp";
     candidate_name := fun _ => "k3x9w2ab";
     mkdtemp_error := fun _ => None;
     resists_removal :=
       fun _ q => String.eqb q "/tmp/repo2prompt_k3x9w2ab/README.md"
                  || String.eqb q "/tmp/repo2prompt_k3x9w2ab";
     text_decode := decode;
     spawn := programs 0 0 "" "";
     json_loads := parse;
     json_dumps := dumps |}.

(** A disk without room for another directory. *)
Definition full_disk : Env :=
  {| nfkc := fun s => s;
     bracketed_host_error := fun _ => None;
     gettempdir := "/tmp";
     candidate_name := fun _ => "k3x9w2ab";
     mkdtemp_error :=
       fun _ =>
         Some "[Errno 28] No space left on device: '/tmp/repo2prompt_k3x9w2ab'";
     resists_removal := fun _ _ => false;
     text_decode := decode;
     spawn := programs 0 0 "" "";
     json_loads := parse;
     json_dumps := dumps |}.

(** Programs that succeed silently. *)
Definition quiet : Env := env 0 0 "" "".

(** An empty disk, silent streams, nothing done yet. *)
Definition world0 : World :=
  {| fs := fun _ => false; out_stream := ""; err_stream := ""; trace := [] |}.

Definition machine0 : Machine := {| self := __init__; world := world0 |}.

Definition json_options : Options := with_output_format (Some "json") no_options.

Definition glob_options : Options :=
  with_exclude (Some ["tests/*"]) (with_include (Some ["*.py"; "*.md"]) no_options).

End Demo.

(** * The rest of the module *)

(** ** More string methods *)

Module PyStr.

(** [s.rstrip(chars)], with the character set as a predicate. *)
Fixpoint rstrip (p : ascii -> bool) (s : string) : string :=
  match s with
  | EmptyString => EmptyString
  | String c s' =>
      match rstrip p s' with
      | EmptyString => if p c then EmptyString else String c EmptyString
      | r => String c r
      end
  end.

(** [s.endswith(suffix)] *)
Definition endswith (suffix s : string) : bool :=
  String.eqb (Py.drop (String.length s - String.length suffix) s) suffix.

(** [needle in hay] for two strings. *)
Fixpoint contains_str (needle hay : string) : bool :=
  String.prefix needle hay
  || match hay with
     | EmptyString => false
     | String _ hay' => contains_str needle hay'
     end.

(** Number of occurrences of a character. *)
Fixpoint count_char (c : ascii) (s : string) : nat :=
  match s with
  | EmptyString => O
  | String d s' => ((if Ascii.eqb c d then 1 else 0) + count_char c s')%nat
  end.

End PyStr.

(** ** [Repo2Prompt._extract_repo_info] *)

(** The URL as [_extract_repo_info] first rewrites it: trailing slashes
    stripped, then one trailing [.git] cut off. *)
Definition repo_url (url : string) : string :=
  let url := PyStr.rstrip (Ascii.eqb "/") url in
  if PyStr.endswith ".git" url
  then Py.take (String.length url - 4) url
  else url.

(** The result is the dictionary [{"owner": ..., "repo": ...}], kept as
    its items in insertion order; [parts[-2]] and [parts[-1]] are taken
    from a list of at least five parts. *)
Definition _extract_repo_info (url : string)
  : result (list (string * string)) :=
  let url := repo_url url in
  let parts := Py.split "/" url in
  if (length parts <? 5)%nat
  then Raise (ValueError ("Invalid GitHub URL format: " ++ url))
  else
    let owner := nth (length parts - 2) parts "" in
    let repo := nth (length parts - 1) parts "" in
    Ok [("owner", owner); ("repo", repo)].

(** ** Start-up: the scripts directory and [PATH] *)

(** What the start-up code reads from the interpreter and the
    platform.  A [pathlib.Path] is kept as the text [str] gives for
    it. *)
Record Host : Type := {
  (** [platform.system()] *)
  platform_system : string;
  (** [os.pathsep] *)
  os_pathsep : ascii;
  (** [Path(os.path.expanduser("~")) / "AppData" / "Roaming" / "Python"
      / f"Python{major}{minor}" / "Scripts"] *)
  roaming_scripts : string;
  (** [Path(site.USER_BASE) / "Scripts"] *)
  user_base_scripts : string;
  (** [Path(site.USER_BASE) / "bin"] *)
  user_base_bin : string;
  (** whether the [OSError] with this text is a [FileNotFoundError] *)
  file_not_found : string -> bool
}.

(** The state of the running process outside any [Repo2Prompt]:
    [os.environ["PATH"]] ([None] when unset) and the world. *)
Record Process : Type := {
  environ_PATH : option string;
  os : World
}.

(** How [main] is left: by returning, by [sys.exit(code)], or by an
    exception nobody caught. *)
Inductive status : Type :=
| Returned
| SystemExit (code : Z)
| Uncaught (e : exn).

Definition newline : string := String "010" EmptyString.

Definition double_quote : string := String "034" EmptyString.

(** [print(text)] at module level. *)
Definition say (text : string) (p : Process) : Process :=
  {| environ_PATH := environ_PATH p;
     os := log (EvPrint text)
             {| fs := fs (os p);
                out_stream := out_stream (os p) ++ text ++ newline;
                err_stream := err_stream (os p);
                trace := trace (os p) |} |}.

(** [print(text, file=sys.stderr)] *)
Definition say_err (text : string) (p : Process) : Process :=
  {| environ_PATH := environ_PATH p;
     os := {| fs := fs (os p);
              out_stream := out_stream (os p);
              err_stream := err_stream (os p) ++ text ++ newline;
              trace := trace (os p) |} |}.

(** [path.exists()] for a [Path] with text [d]. *)
Definition path_exists (d : string) (p : Process) : bool * Process :=
  (fs (os p) d,
   {| environ_PATH := environ_PATH p; os := log (EvExists d) (os p) |}).

(** [os.environ.get("PATH", "")] *)
Definition getenv_PATH (p : Process) : string :=
  match environ_PATH p with
  | Some v => v
  | None => EmptyString
  end.

(** [os.environ["PATH"] = v] *)
Definition setenv_PATH (v : string) (p : Process) : Process :=
  {| environ_PATH := Some v; os := os p |}.

Section Startup.

Variable H : Host.

Definition is_windows : bool := String.eqb (platform_system H) "Windows".

Definition pathsep : string := String (os_pathsep H) EmptyString.

Definition get_scripts_dir (p : Process) : string * Process :=
  if is_windows then
    let user_scripts_dir := roaming_scripts H in
    let '(present, p) := path_exists user_scripts_dir p in
    if negb present then (user_base_scripts H, p)
    else (user_scripts_dir, p)
  else (user_base_bin H, p).

Definition check_path_env (p : Process) : bool * Process :=
  if is_windows then
    let '(user_scripts_dir, p) := get_scripts_dir p in
    let path_env := Py.split (os_pathsep H) (getenv_PATH p) in
    (existsb (String.eqb user_scripts_dir) path_env, p)
  else (true, p).

(** The eleven lines of advice [add_to_path_env] prints last. *)
Definition permanent_path_advice (user_scripts_dir : string) : list string :=
  [ newline ++ "NOTE: For permanent PATH updates, add this directory to your PATH:";
    "    " ++ user_scripts_dir;
    "You can do this by:";
    "    1. Search for 'Edit environment variables for your account' in Windows";
    "    2. Edit the PATH variable";
    "    3. Add the directory above as a new entry";
    "    4. Restart your command prompt";
    newline ++ "Or add this to your PowerShell profile ($PROFILE):";
    "    $ENV:PATH += " ++ double_quote ++ ";" ++ user_scripts_dir
      ++ double_quote;
    newline ++ "Or for Command Prompt, use:";
    "    setx PATH " ++ double_quote ++ "%PATH%;" ++ user_scripts_dir
      ++ double_quote ++ newline ].

Definition add_to_path_env (p : Process) : Process :=
  if negb is_windows then p
  else
    let '(user_scripts_dir, p) := get_scripts_dir p in
    let '(present, p) := path_exists user_scripts_dir p in
    if negb present then
      say_err ("Warning: Scripts directory " ++ user_scripts_dir
               ++ " does not exist.") p
    else
      let path_env := getenv_PATH p in
      let p :=
        if negb (PyStr.contains_str user_scripts_dir path_env) then
          say ("Added " ++ user_scripts_dir ++ " to PATH for current session.")
            (setenv_PATH (user_scripts_dir ++ pathsep ++ path_env) p)
        else p in
      fold_left (fun p line => say line p)
        (permanent_path_advice user_scripts_dir) p.

Variable E : Env.

(** Module-level code runs a computation beside no object: the
    placeholder it is given is dropped again. *)
Definition at_module_level {A} (c : M A) (p : Process) : result A * Process :=
  let '(r, m) := c {| self := __init__; world := os p |} in
  (r, {| environ_PATH := environ_PATH p; os := world m |}).

Definition check_code2prompt_installed (p : Process) : result bool * Process :=
  let '(r, p) :=
    at_module_level (subprocess_run E ["code2prompt"; "--version"] true) p in
  match r with
  | Ok _ => (Ok true, p)
  | Raise (CalledProcessError _ _ _ _) => (Ok false, p)
  | Raise (OSError msg) =>
      if file_not_found H msg then (Ok false, p) else (Raise (OSError msg), p)
  | Raise e => (Raise e, p)
  end.

End Startup.

(** ** [main] *)

(** The [Namespace] that [parser.parse_args()] returns. *)
Module Cli.

Record Namespace : Type := {
  github_url : string;
  subdirectory : option string;
  branch : option string;
  template : option string;
  include : option string;
  exclude : option string;
  tokens : bool;
  encoding : option string;
  output : option string;
  output_format : option string;
  diff : bool;
  line_number : bool;
  no_codeblock : bool;
  hidden : bool;
  no_ignore : bool;
  git_diff_branch : option string;
  git_log_branch : option string
}.

End Cli.

(** The keyword arguments [main] hands to [generate_prompt], the two
    glob arguments split at the commas. *)
Definition options_of (args : Cli.Namespace) : Options :=
  {| template := Cli.template args;
     include := split_globs (Cli.include args);
     exclude := split_globs (Cli.exclude args);
     count_tokens := Cli.tokens args;
     encoding := Cli.encoding args;
     output := Cli.output args;
     output_format := Cli.output_format args;
     diff := Cli.diff args;
     line_number := Cli.line_number args;
     no_codeblock := Cli.no_codeblock args;
     hidden := Cli.hidden args;
     no_ignore := Cli.no_ignore args;
     git_diff_branch := Cli.git_diff_branch args;
     git_log_branch := Cli.git_log_branch args |}.

(** What [main] prints when the generator is not installed. *)
Definition not_installed_advice : list string :=
  [ "Error: code2prompt is not installed or not in PATH.";
    "Please install code2prompt using cargo:";
    "    cargo install code2prompt";
    "For more information, visit: https://github.com/sampottinger/code2prompt" ].

(** [main()], from the arguments as parsed: the start-up checks, the
    scope with the request in it, and the handler for [ValueError] and
    [RuntimeError]. *)
Definition main (H : Host) (E : Env) (args : Cli.Namespace) (p : Process)
  : status * Process :=
  let '(in_path, p) := check_path_env H p in
  let p := if negb in_path then add_to_path_env H p else p in
  let '(installed, p) := check_code2prompt_installed H E p in
  match installed with
  | Raise e => (Uncaught e, p)
  | Ok false =>
      (SystemExit 1, fold_left (fun p line => say_err line p)
                       not_installed_advice p)
  | Ok true =>
      let '(r, w) :=
        scoped_generate E (Cli.github_url args) (Cli.subdirectory args)
          (Cli.branch args) (options_of args) (os p) in
      let p := {| environ_PATH := environ_PATH p; os := w |} in
      match r with
      | Ok _ => (Returned, p)
      | Raise (ValueError msg) | Raise (JSONDecodeError msg)
      | Raise (UnicodeDecodeError msg)
      | Raise (RuntimeError msg) | Raise (RecursionError msg) =>
          (SystemExit 1, say_err ("Error: " ++ msg) p)
      | Raise e => (Uncaught e, p)
      end
  end.

(** ** Auxiliary definitions for the statements about start-up *)

(** The directory [get_scripts_dir] answers on a disk [f]. *)
Definition scripts_dir (H : Host) (f : string -> bool) : string :=
  if is_windows H then
    if f (roaming_scripts H) then roaming_scripts H else user_base_scripts H
  else user_base_bin H.

(** The process after the first statement of [main]:
    [if not check_path_env(): add_to_path_env()]. *)
Definition after_path_check (H : Host) (p : Process) : Process :=
  let '(in_path, p) := check_path_env H p in
  if negb in_path then add_to_path_env H p else p.


(** The command of the installation check. *)
Definition version_probe : list string := ["code2prompt"; "--version"].

(** The text a list of printed lines adds to a stream. *)
Definition lines_text (lines : list string) : string :=
  fold_left (fun acc line => acc ++ line ++ newline) lines "".

(** ** A concrete host for worked runs *)

Module DemoHost.

Definition scripts : string :=
  "C:\Users\ada\AppData\Roaming\Python\Python311\Scripts".

Definition windows : Host :=
  {| platform_system := "Windows";
     os_pathsep := ";";
     roaming_scripts := scripts;
     user_base_scripts := "C:\Users\ada\AppData\Roaming\Python\Scripts";
     user_base_bin := "C:\Users\ada\AppData\Roaming\Python\bin";
     file_not_found := String.prefix "[WinError 2]" |}.

Definition linux : Host :=
  {| platform_system := "Linux";
     os_pathsep := ":";
     roaming_scripts := "/home/ada/AppData/Roaming/Python/Python311/Scripts";
     user_base_scripts := "/home/ada/.local/Scripts";
     user_base_bin := "/home/ada/.local/bin";
     file_not_found := String.prefix "[Errno 2]" |}.

(** A disk on which only the scripts directory exists. *)
Definition process (path : option string) : Process :=
  {| environ_PATH := path;
     os := {| fs := String.eqb scripts; out_stream := ""; err_stream := "";
              trace := [] |} |}.

Definition args (url : string) (format : option string) : Cli.Namespace :=
  {| Cli.github_url := url; Cli.subdirectory := None; Cli.branch := None;
     Cli.template := None; Cli.include := Some "*.py,*.md";
     Cli.exclude := None; Cli.tokens := false; Cli.encoding := None;
     Cli.output := None; Cli.output_format := format; Cli.diff := false;
     Cli.line_number := false; Cli.no_codeblock := false;
     Cli.hidden := false; Cli.no_ignore := false;
     Cli.git_diff_branch := None; Cli.git_log_branch := None |}.

(** An environment without [git]: starting it fails with a
    [FileNotFoundError]; [code2prompt] is there. *)
Definition no_git : Env :=
  Demo.around
    (fun argv f =>
       match argv with
       | "code2prompt"%string :: _ => Exited 0 "" "" f
       | _ => NotStarted "[Errno 2] No such file or directory: 'git'"
       end).

(** An environment without [code2prompt]. *)
Definition no_generator : Env :=
  Demo.around
    (fun argv f =>
       NotStarted "[Errno 2] No such file or directory: 'code2prompt'").

End DemoHost.

(** * Properties *)

Local Open Scope prog_scope.

(** ** Equations of the primitives *)

(** The path [os.path.join] builds from a non-empty second component is
    not empty, so [__exit__] never skips a directory [mkdtemp] made. *)
Lemma join_nonempty a c b : OsPath.join a (String c b) <> "".
Proof.
  unfold OsPath.join.
  destruct (OsPath.startswith_sep (String c b) || String.eqb a "");
    [discriminate |].
  destruct (OsPath.endswith_sep a); destruct a; simpl; discriminate.
Qed.

Lemma join_truthy a c b : Py.truthy_str (Some (OsPath.join a (String c b))) = true.
Proof.
  unfold Py.truthy_str.
  destruct (String.eqb_spec (OsPath.join a (String c b)) "") as [H | H];
    [| reflexivity].
  exfalso. exact (join_nonempty _ _ _ H).
Qed.

Lemma temp_path_truthy E w : Py.truthy_str (Some (temp_path E w)) = true.
Proof. unfold temp_path. simpl append. apply join_truthy. Qed.

Lemma beneath_self d : Fs.beneath d d = true.
Proof. unfold Fs.beneath. rewrite String.eqb_refl. reflexivity. Qed.

Lemma remove_tree_gone resists d f q :
  Fs.beneath d q = true -> resists q = false ->
  Fs.remove_tree resists d f q = false.
Proof.
  intros H Hr. unfold Fs.remove_tree. rewrite H, Hr. apply andb_false_r.
Qed.

Lemma remove_tree_kept resists d f q :
  Fs.beneath d q = false -> Fs.remove_tree resists d f q = f q.
Proof.
  intros H. unfold Fs.remove_tree. rewrite H. apply andb_true_r.
Qed.

(** What is left of a tree after its removal was there before and
    resisted. *)
Lemma remove_tree_left resists d f q :
  Fs.beneath d q = true -> Fs.remove_tree resists d f q = true ->
  f q = true /\ resists q = true.
Proof.
  intros H. unfold Fs.remove_tree. rewrite H. cbn [negb orb].
  intros Hq. now apply andb_true_iff in Hq.
Qed.


(** [__exit__] on an object whose [temp_dir] is a non-empty path. *)
Lemma exit_assigned E m d :
  temp_dir (self m) = Some d -> Py.truthy_str (Some d) = true ->
  __exit__ E m =
    (Ok tt,
     {| self := self m;
        world := log (EvRmtree d)
                   (with_fs (Fs.remove_tree (resists_removal E (fs (world m)))
                               d (fs (world m))) (world m)) |}).
Proof.
  intros Hd Ht. unfold __exit__. rewrite Hd, Ht. reflexivity.
Qed.

(** [__exit__] on an object that never got a directory does nothing. *)
Lemma exit_unassigned E m :
  temp_dir (self m) = None -> __exit__ E m = (Ok tt, m).
Proof. intros Hd. unfold __exit__. rewrite Hd. reflexivity. Qed.

(** [__exit__] never raises, whatever becomes of the removal. *)
Lemma exit_never_raises E m : fst (__exit__ E m) = Ok tt.
Proof.
  unfold __exit__. destruct (temp_dir (self m)) as [d |]; [| reflexivity].
  destruct (Py.truthy_str (Some d)); reflexivity.
Qed.

(** Removal takes the tree and nothing else. *)
Lemma exit_keeps_the_rest E m d q :
  temp_dir (self m) = Some d -> Fs.beneath d q = false ->
  fs (world (snd (__exit__ E m))) q = fs (world m) q.
Proof.
  intros Hd Hq. unfold __exit__. rewrite Hd.
  destruct (Py.truthy_str (Some d)); [| reflexivity].
  cbn [snd world rmtree on_world log with_fs fs].
  now apply remove_tree_kept.
Qed.

(** ** [subprocess.run], case by case *)

Lemma communicate_text_raises E out err e :
  communicate_text E out err = Raise e ->
  exists msg, e = UnicodeDecodeError msg.
Proof.
  unfold communicate_text.
  destruct (text_decode E out) as [o | msg];
    [destruct (text_decode E err) as [e' | msg] |];
    intros H; try discriminate; injection H as <-; eauto.
Qed.

Lemma communicate_text_ok E out err o e :
  communicate_text E out err = Ok (o, e) <->
  text_decode E out = inl o /\ text_decode E err = inl e.
Proof.
  unfold communicate_text.
  destruct (text_decode E out) as [o' | msg];
    [destruct (text_decode E err) as [e' | msg] |];
    split; try (intros [? ?]; discriminate); try discriminate.
  - intros H. injection H as <- <-. split; reflexivity.
  - intros [H1 H2]. injection H1 as <-. injection H2 as <-. reflexivity.
Qed.

(** ** [_clone_repository], case by case *)

Lemma clone_equation E url branch m :
  let w := world m in
  let d := temp_path E w in
  let cmd := clone_cmd url branch d in
  _clone_repository E url branch m =
    match mkdtemp_error E (fs w) with
    | Some msg => (Raise (OSError msg), m)
    | None =>
        match spawn E cmd (Fs.mkdir d (fs w)) with
        | NotStarted msg =>
            (Raise (OSError msg),
             {| self := {| temp_dir := Some d |};
                world := log (EvRun cmd true) (after_mkdtemp E w) |})
        | Exited rc out err f =>
            (match communicate_text E out err with
             | Raise e => Raise e
             | Ok (_, e) =>
                 if rc =? 0 then Ok d
                 else Raise (RuntimeError
                               ("Failed to clone repository: " ++ e))
             end,
             {| self := {| temp_dir := Some d |};
                world := log (EvRun cmd true)
                           (with_fs f (after_mkdtemp E w)) |})
        end
    end.
Proof.
  intros w d cmd.
  unfold _clone_repository, bind, try_except, mkdtemp, set_temp_dir,
    subprocess_run, ret, raise.
  fold w.
  destruct (mkdtemp_error E (fs w)) as [msg |]; [reflexivity |].
  cbn [self world fs fst snd].
  fold (temp_path E w). fold d. fold cmd.
  unfold after_mkdtemp, log, with_fs. cbn [fs out_stream err_stream trace].
  fold d.
  destruct (spawn E cmd (Fs.mkdir d (fs w))) as [msg | rc out err f];
    [reflexivity |].
  destruct (communicate_text E out err) as [[o e] | e] eqn:Hc.
  - destruct (rc =? 0); reflexivity.
  - destruct (communicate_text_raises _ _ _ _ Hc) as [msg ->]. reflexivity.
Qed.

(** ** [_get_subdirectory_path], case by case *)

Lemma subdirectory_equation base_dir subdirectory m :
  _get_subdirectory_path base_dir subdirectory m =
    match subdirectory with
    | None => (Ok base_dir, m)
    | Some sub =>
        if String.eqb sub "" then (Ok base_dir, m)
        else
          let p := OsPath.join base_dir sub in
          (if fs (world m) p then Ok p
           else Raise (ValueError ("Subdirectory '" ++ sub
                                   ++ "' does not exist in the repository")),
           {| self := self m; world := log (EvExists p) (world m) |})
    end.
Proof.
  unfold _get_subdirectory_path.
  destruct subdirectory as [sub |]; [| reflexivity].
  unfold Py.truthy_str. destruct (String.eqb sub ""); [reflexivity |].
  cbn [negb]. unfold bind, exists_, ret, raise.
  destruct (fs (world m) (OsPath.join base_dir sub)); reflexivity.
Qed.

(** ** [_run_code2prompt], case by case *)

Lemma json_loads_result_raises E s e :
  json_loads_result E s = Raise e ->
  exists msg,
    e = JSONDecodeError msg \/ e = RecursionError msg \/ e = ValueError msg.
Proof.
  unfold json_loads_result.
  destruct (json_loads E s) as [v | msg | msg | msg]; intros H;
    try discriminate; injection H as <-; eauto.
Qed.

Lemma run_equation E directory o m :
  let w := world m in
  let cmd := final_cmd directory o in
  let capture := wants_json o in
  _run_code2prompt E directory o m =
    match spawn E cmd (fs w) with
    | NotStarted msg =>
        (Raise (OSError msg),
         {| self := self m; world := log (EvRun cmd capture) w |})
    | Exited rc out err f =>
        ((if capture then
            match communicate_text E out err with
            | Raise e => Raise e
            | Ok (text, diagnostics) =>
                if rc =? 0 then json_loads_result E text
                else Raise (RuntimeError
                              ("Failed to run code2prompt: " ++ diagnostics))
            end
          else
            if rc =? 0 then Ok success_marker
            else Raise (RuntimeError "Failed to run code2prompt: None")),
         {| self := self m; world := after_run cmd capture out err f w |})
    end.
Proof.
  intros w cmd capture. subst w cmd capture.
  unfold _run_code2prompt, final_cmd, try_except, after_run.
  destruct (wants_json o).
  - unfold bind, subprocess_run.
    destruct (spawn E _ (fs (world m))) as [msg | rc out err f];
      [reflexivity |].
    destruct (communicate_text E out err) as [[text diagnostics] | e] eqn:Hc.
    + destruct (rc =? 0); [| reflexivity].
      cbn [stdout loads]. unfold lift.
      destruct (json_loads_result E text) as [v | e] eqn:Hl; [reflexivity |].
      destruct (json_loads_result_raises _ _ _ Hl) as [msg [-> | [-> | ->]]];
        reflexivity.
    + destruct (communicate_text_raises _ _ _ _ Hc) as [msg ->]. reflexivity.
  - unfold bind, subprocess_run.
    destruct (spawn E _ (fs (world m))) as [msg | rc out err f];
      [reflexivity |].
    destruct (rc =? 0); reflexivity.
Qed.

(** ** URL validation *)

(** Case split on the fragment and query tests at the end of
    [urlsplit], for a remaining text [rest]. *)
Ltac split_tail rest :=
  destruct (Py.contains "#" rest);
  destruct (Py.partition "#" rest) as [[? ?] ?];
  match goal with
  | |- context [Py.contains "?" ?x] =>
      destruct (Py.contains "?" x);
      destruct (Py.partition "?" x) as [[? ?] ?]
  end.

Ltac split_ifs :=
  repeat match goal with
    | |- context [if ?c then _ else _] => destruct c
    end.

(** [urlparse] fails with [ValueError] and nothing else. *)
Lemma urlparse_raises_ValueError E url e :
  Urllib.urlparse E url = Raise e -> exists msg, e = ValueError msg.
Proof.
  unfold Urllib.urlparse, Urllib.urlsplit, Urllib._checknetloc.
  destruct (Urllib.split_scheme _) as [sch u].
  destruct (String.eqb (Py.take 2 u) "//").
  - destruct (Urllib._splitnetloc u 2) as [nl rest].
    destruct ((Py.contains "[" nl && negb (Py.contains "]" nl))
              || (Py.contains "]" nl && negb (Py.contains "[" nl))).
    + cbn [rbind]. intros H. injection H as <-. eauto.
    + destruct (Py.contains "[" nl && Py.contains "]" nl);
        [destruct (bracketed_host_error E _) as [msg |] |];
        cbn [rbind];
        try (intros H; injection H as <-; eauto; fail);
        split_tail rest; split_ifs; cbn [rbind]; intros H;
        try discriminate; injection H as <-; eauto.
  - cbn [rbind]. split_tail u; cbn; intros H; discriminate.
Qed.

(** The test of [_validate_github_url] is a test on the authority
    component of the parsed URL. *)
Lemma validate_true_netloc E url :
  _validate_github_url E url = Ok true <->
  exists r, Urllib.urlparse E url = Ok r
            /\ (Urllib.netloc r = "github.com"
                \/ Urllib.netloc r = "www.github.com").
Proof.
  unfold _validate_github_url.
  destruct (Urllib.urlparse E url) as [r | e]; cbn [rbind existsb].
  - rewrite orb_false_r. split.
    + intros H. injection H as H. exists r. split; [reflexivity |].
      apply orb_prop in H.
      destruct H as [H | H]; apply String.eqb_eq in H; auto.
    + intros (r' & Hr & H). injection Hr as <-.
      destruct H as [-> | ->]; reflexivity.
  - split; [discriminate |]. intros (r' & Hr & _). discriminate.
Qed.

(** A parse result whose authority is one of the two names has that
    name as its host. *)
Lemma netloc_github_hostname r :
  Urllib.netloc r = "github.com" \/ Urllib.netloc r = "www.github.com" ->
  Urllib.hostname r = Some (Urllib.netloc r).
Proof.
  unfold Urllib.hostname. intros [-> | ->]; reflexivity.
Qed.

Lemma validate_true_host E url :
  _validate_github_url E url = Ok true -> host_is_github E url = true.
Proof.
  intros H. apply validate_true_netloc in H. destruct H as (r & Hr & Hn).
  unfold host_is_github. rewrite Hr, (netloc_github_hostname r Hn).
  destruct Hn as [-> | ->]; reflexivity.
Qed.

(** Whatever the URL, validation yields a truth value or a
    [ValueError]. *)
Lemma validate_cases E url :
  _validate_github_url E url = Ok true
  \/ _validate_github_url E url = Ok false
  \/ exists msg, _validate_github_url E url = Raise (ValueError msg).
Proof.
  unfold _validate_github_url.
  destruct (Urllib.urlparse E url) as [r | e] eqn:Hp; cbn [rbind].
  - destruct (existsb _ _); auto.
  - right; right. apply urlparse_raises_ValueError in Hp.
    destruct Hp as (msg & ->). eauto.
Qed.

(** ** The authority of a URL *)

Lemma take_drop n s : Py.take n s ++ Py.drop n s = s.
Proof.
  revert s. induction n as [| n IH]; intros [| c s]; cbn; try reflexivity.
  now rewrite IH.
Qed.

Lemma authority_len_le s : (authority_len s <= String.length s)%nat.
Proof.
  induction s as [| c s IH]; cbn; [lia |].
  destruct (is_delim c); lia.
Qed.

(** No delimiter occurs before the end of the authority. *)
Lemma index_of_delim_ge c s k :
  is_delim c = true -> Py.index_of c s = Some k ->
  (authority_len s <= k)%nat.
Proof.
  intros Hc. revert k. induction s as [| d s IH]; intros k; cbn.
  - discriminate.
  - destruct (Ascii.eqb_spec c d) as [<- | Hne].
    + rewrite Hc. lia.
    + destruct (is_delim d); [lia |].
      destruct (Py.index_of c s) as [j |]; [| discriminate].
      intros H. injection H as <-. specialize (IH j eq_refl). lia.
Qed.

(** The authority ends at the end of the text or at the first
    occurrence of one of the three delimiters. *)
Lemma authority_len_reached s :
  authority_len s = String.length s
  \/ Py.index_of "/" s = Some (authority_len s)
  \/ Py.index_of "?" s = Some (authority_len s)
  \/ Py.index_of "#" s = Some (authority_len s).
Proof.
  induction s as [| d s IH]; cbn [authority_len String.length Py.index_of].
  - now left.
  - unfold is_delim.
    destruct (Ascii.eqb_spec d "/") as [-> | H1]; [cbn; auto |].
    destruct (Ascii.eqb_spec d "?") as [-> | H2]; [cbn; auto |].
    destruct (Ascii.eqb_spec d "#") as [-> | H3]; [cbn; auto |].
    cbn [orb].
    assert (E1 : Ascii.eqb "/" d = false)
      by (apply Ascii.eqb_neq; congruence).
    assert (E2 : Ascii.eqb "?" d = false)
      by (apply Ascii.eqb_neq; congruence).
    assert (E3 : Ascii.eqb "#" d = false)
      by (apply Ascii.eqb_neq; congruence).
    rewrite E1, E2, E3.
    destruct IH as [-> | [-> | [-> | ->]]]; auto.
Qed.

(** [_splitnetloc], which works with [find] and indices, cuts the text
    after [//] exactly where the structural reading does. *)
Lemma splitnetloc_authority s :
  Urllib._splitnetloc ("//" ++ s) 2 =
    (Py.take (authority_len s) s, Py.drop (authority_len s) s).
Proof.
  unfold Urllib._splitnetloc. cbn [fold_left].
  unfold Py.find, Py.len.
  change (Z.to_nat 2) with 2%nat.
  change (Py.drop 2 ("//" ++ s)) with s.
  change (String.length ("//" ++ s)) with (S (S (String.length s))).
  pose proof (authority_len_le s) as Hle.
  pose proof (index_of_delim_ge "/" s) as H1.
  pose proof (index_of_delim_ge "?" s) as H2.
  pose proof (index_of_delim_ge "#" s) as H3.
  pose proof (authority_len_reached s) as Hr.
  match goal with
  | |- (Py.slice _ 2 ?d, _) = _ =>
      assert (Hd : d = 2 + Z.of_nat (authority_len s))
  end.
  { destruct (Py.index_of "/" s) as [k1 |];
      destruct (Py.index_of "?" s) as [k2 |];
      destruct (Py.index_of "#" s) as [k3 |];
      try specialize (H1 _ eq_refl eq_refl);
      try specialize (H2 _ eq_refl eq_refl);
      try specialize (H3 _ eq_refl eq_refl);
      repeat match goal with
        | |- context [if ?c then _ else _] => destruct c eqn:?
        end;
      repeat match goal with
        | H : _ \/ _ |- _ => destruct H
        | H : Some _ = Some _ |- _ => injection H as H
        | H : None = Some _ |- _ => discriminate H
        end;
      lia. }
  rewrite Hd. unfold Py.slice.
  replace (Z.to_nat (2 + Z.of_nat (authority_len s) - 2))
    with (authority_len s) by lia.
  replace (Z.to_nat (2 + Z.of_nat (authority_len s)))
    with (S (S (authority_len s))) by lia.
  reflexivity.
Qed.

Lemma take2_slashes u :
  String.eqb (Py.take 2 u) "//" = true -> u = "//" ++ Py.drop 2 u.
Proof.
  intros H. apply String.eqb_eq in H.
  rewrite <- H. symmetry. apply take_drop.
Qed.

Lemma splitnetloc_after_slashes u :
  String.eqb (Py.take 2 u) "//" = true ->
  Urllib._splitnetloc u 2 =
    (Py.take (authority_len (Py.drop 2 u)) (Py.drop 2 u),
     Py.drop (authority_len (Py.drop 2 u)) (Py.drop 2 u)).
Proof.
  intros H. rewrite (take2_slashes u H) at 1. apply splitnetloc_authority.
Qed.

(** The [netloc] of a successful parse is the authority, or empty when
    the text after the scheme does not start with [//]. *)
Lemma urlparse_netloc E url r :
  Urllib.urlparse E url = Ok r ->
  Urllib.netloc r = match authority url with Some a => a | None => "" end.
Proof.
  unfold Urllib.urlparse, Urllib.urlsplit, authority, after_scheme, cleaned.
  destruct (Urllib.split_scheme _) as [sch u]. cbn [snd].
  destruct (String.eqb (Py.take 2 u) "//") eqn:H2.
  - rewrite (splitnetloc_after_slashes u H2).
    set (a := Py.take _ _). set (rest := Py.drop _ (Py.drop 2 u)).
    destruct ((Py.contains "[" a && negb (Py.contains "]" a))
              || (Py.contains "]" a && negb (Py.contains "[" a)));
      [discriminate |].
    destruct (Py.contains "[" a && Py.contains "]" a);
      [destruct (bracketed_host_error E _); [discriminate |] |];
      cbn [rbind]; split_tail rest;
      destruct (Urllib._checknetloc E a); cbn [rbind];
      intros H; try discriminate; injection H as <-; reflexivity.
  - cbn [rbind]. split_tail u; cbn; intros H; injection H as <-; reflexivity.
Qed.

(** An authority of plain ASCII without brackets always parses. *)
Lemma urlparse_of_authority E url a :
  authority url = Some a ->
  Py.contains "[" a = false -> Py.contains "]" a = false ->
  Py.isascii a = true ->
  exists r, Urllib.urlparse E url = Ok r /\ Urllib.netloc r = a.
Proof.
  unfold Urllib.urlparse, Urllib.urlsplit, authority, after_scheme, cleaned.
  destruct (Urllib.split_scheme _) as [sch u]. cbn [snd].
  destruct (String.eqb (Py.take 2 u) "//") eqn:H2; [| discriminate].
  rewrite (splitnetloc_after_slashes u H2).
  set (rest := Py.drop _ (Py.drop 2 u)).
  set (a' := Py.take _ _).
  intros H Ho Hc Ha. assert (Ha' : a' = a) by congruence.
  clearbody a' rest. subst a'. rewrite Ho, Hc.
  cbn [andb orb negb rbind]. unfold Urllib._checknetloc. rewrite Ha.
  rewrite orb_true_r.
  split_tail rest; cbn [rbind]; eexists; split; reflexivity.
Qed.

(** [_validate_github_url] accepts exactly the URLs whose authority is,
    letter for letter, one of the two GitHub names. *)
Lemma validate_authority E url :
  _validate_github_url E url = Ok true <->
  authority url = Some "github.com" \/ authority url = Some "www.github.com".
Proof.
  split.
  - intros H. apply validate_true_netloc in H. destruct H as (r & Hr & Hn).
    apply urlparse_netloc in Hr.
    destruct (authority url) as [a |].
    + rewrite <- Hr. destruct Hn as [-> | ->]; auto.
    + rewrite Hr in Hn. destruct Hn; discriminate.
  - intros H. apply validate_true_netloc.
    destruct H as [H | H];
      destruct (urlparse_of_authority E url _ H) as (r & Hr & Hn);
      try reflexivity; exists r; auto.
Qed.

(** Every [https] address under [github.com] is accepted, whatever
    follows the host. *)
Lemma validate_https_github E rest :
  _validate_github_url E ("https://github.com/" ++ rest) = Ok true.
Proof.
  apply validate_authority. left. reflexivity.
Qed.

(** C4, as stated, fails: the URL below has host [github.com], yet
    [_validate_github_url] answers false, because the test is on the
    whole authority, port included. *)
Lemma validate_rejects_github_host_with_port :
  host_is_github Demo.quiet "https://github.com:443/acme/widget" = true
  /\ _validate_github_url Demo.quiet "https://github.com:443/acme/widget"
     = Ok false.
Proof. split; reflexivity. Qed.

(** User information and upper-case letters in the authority are
    rejected in the same way. *)
Example validate_rejects_userinfo_and_case :
  map (_validate_github_url Demo.quiet)
    ["https://git@github.com/acme/widget"; "https://GitHub.com/acme/widget";
     "github.com/acme/widget"; "//www.github.com"; "ssh://github.com?x"]
  = [Ok false; Ok false; Ok false; Ok true; Ok true].
Proof. reflexivity. Qed.

(** C4 (amended): [_validate_github_url] is a function of the URL text
    alone and returns true exactly when the authority of the URL, the
    text between [//] and the first [/], [?] or [#], is letter for
    letter [github.com] or [www.github.com]; whenever it returns true
    the host of the URL is one of the two names. *)
Theorem validate_github_url_authority E url :
  (_validate_github_url E url = Ok true <->
   authority url = Some "github.com" \/ authority url = Some "www.github.com")
  /\ (_validate_github_url E url = Ok true -> host_is_github E url = true).
Proof.
  split; [apply validate_authority | apply validate_true_host].
Qed.

Lemma validate_github_url_authority_witness :
  _validate_github_url Demo.quiet "https://www.github.com/acme/widget" = Ok true
  /\ host_is_github Demo.quiet "https://www.github.com/acme/widget" = true.
Proof.
  split; [reflexivity |].
  apply (proj2 (validate_github_url_authority
                  Demo.quiet "https://www.github.com/acme/widget")).
  reflexivity.
Defined.

(** ** The order of the four steps *)

Lemma trace_log ev w : trace (log ev w) = (trace w ++ [ev])%list.
Proof. reflexivity. Qed.

(** When validation does not say yes, [generate_prompt] stops there,
    with a [ValueError] and the machine as it was. *)
Lemma generate_prompt_invalid E url subdirectory branch o m :
  _validate_github_url E url <> Ok true ->
  exists msg,
    generate_prompt E url subdirectory branch o m = (Raise (ValueError msg), m)
    /\ (_validate_github_url E url = Ok false ->
        msg = "Invalid GitHub repository URL: " ++ url).
Proof.
  intros Hv. unfold generate_prompt, bind, lift.
  destruct (validate_cases E url) as [H | [H | (msg & H)]].
  - contradiction.
  - rewrite H. cbn [negb]. unfold raise. eexists. split; reflexivity.
  - rewrite H. exists msg. split; [reflexivity | discriminate].
Qed.

(** After a successful validation [generate_prompt] is the other three
    steps in sequence. *)
Lemma generate_prompt_valid E url subdirectory branch o m :
  _validate_github_url E url = Ok true ->
  generate_prompt E url subdirectory branch o m =
    (repo_dir <- _clone_repository E url branch ;;
     target_dir <- _get_subdirectory_path repo_dir subdirectory ;;
     _run_code2prompt E target_dir o) m.
Proof.
  intros Hv. unfold generate_prompt at 1, bind at 1, lift.
  rewrite Hv. reflexivity.
Qed.

(** Whatever happens, [_run_code2prompt] starts exactly one program,
    with the final command. *)
Lemma run_trace E directory o m :
  trace (world (snd (_run_code2prompt E directory o m)))
  = (trace (world m) ++ [EvRun (final_cmd directory o) (wants_json o)])%list.
Proof.
  rewrite run_equation. cbv zeta.
  destruct (spawn E _ _); reflexivity.
Qed.

Lemma run_keeps_self E directory o m :
  self (snd (_run_code2prompt E directory o m)) = self m.
Proof.
  rewrite run_equation. cbv zeta.
  destruct (spawn E _ _); reflexivity.
Qed.

(** The existence check is the one thing [_get_subdirectory_path] adds
    to the trace, and it leaves the object alone. *)
Lemma subdirectory_trace base_dir subdirectory m :
  let m' := snd (_get_subdirectory_path base_dir subdirectory m) in
  trace (world m')
  = (trace (world m) ++ subdirectory_check base_dir subdirectory)%list
  /\ self m' = self m.
Proof.
  rewrite subdirectory_equation. unfold subdirectory_check, Py.truthy_str.
  destruct subdirectory as [sub |];
    [destruct (String.eqb sub "") |]; cbn;
    rewrite ?app_nil_r; split; reflexivity.
Qed.

(** What [_clone_repository] adds to the trace: nothing when no
    directory can be made, else the making of the directory and the run
    of [git]; and the path it returns is the one it made. *)
Lemma clone_trace E url branch m :
  let d := temp_path E (world m) in
  let run := _clone_repository E url branch m in
  match mkdtemp_error E (fs (world m)) with
  | Some msg => run = (Raise (OSError msg), m)
  | None =>
      trace (world (snd run))
      = (trace (world m)
         ++ [EvMkdtemp d; EvRun (clone_cmd url branch d) true])%list
      /\ temp_dir (self (snd run)) = Some d
      /\ forall repo_dir, fst run = Ok repo_dir -> repo_dir = d
  end.
Proof.
  cbv zeta. rewrite clone_equation. cbv zeta.
  destruct (mkdtemp_error E (fs (world m))) as [msg |]; [reflexivity |].
  destruct (spawn E _ _) as [msg | rc out err f]; cbn [fst snd world self].
  - split; [| split; [reflexivity | discriminate]].
    unfold after_mkdtemp. cbn [with_fs trace log].
    rewrite <- app_assoc. reflexivity.
  - split; [| split; [reflexivity |]].
    + unfold after_mkdtemp. cbn [with_fs trace log].
      rewrite <- app_assoc. reflexivity.
    + intros repo_dir.
      destruct (communicate_text E out err) as [[text diagnostics] | e];
        [destruct (rc =? 0) |]; intros H; try discriminate.
      now injection H as <-.
Qed.

(** Past validation, each step takes over the machine the step before
    left, and the first exception ends the run there. *)
Lemma generate_prompt_steps E url subdirectory branch o m :
  _validate_github_url E url = Ok true ->
  match _clone_repository E url branch m with
  | (Raise e, m1) =>
      generate_prompt E url subdirectory branch o m = (Raise e, m1)
  | (Ok repo_dir, m1) =>
      match _get_subdirectory_path repo_dir subdirectory m1 with
      | (Raise e, m2) =>
          generate_prompt E url subdirectory branch o m = (Raise e, m2)
      | (Ok target, m2) =>
          generate_prompt E url subdirectory branch o m
          = _run_code2prompt E target o m2
      end
  end.
Proof.
  intros Hv. rewrite (generate_prompt_valid _ _ _ _ _ _ Hv).
  unfold bind.
  destruct (_clone_repository E url branch m) as [[repo_dir | e] m1];
    [| reflexivity].
  destruct (_get_subdirectory_path repo_dir subdirectory m1)
    as [[target | e] m2]; reflexivity.
Qed.


(** A run that passed validation and got its directory: the object
    holds the directory from then on, and the trace grew by the making
    of the directory and by what the steps taken did after it, no
    removal among it. *)
Lemma generate_prompt_valid_run E url subdirectory branch o m r m' :
  _validate_github_url E url = Ok true ->
  mkdtemp_error E (fs (world m)) = None ->
  generate_prompt E url subdirectory branch o m = (r, m') ->
  temp_dir (self m') = Some (temp_path E (world m))
  /\ exists evs,
       trace (world m')
       = (trace (world m) ++ EvMkdtemp (temp_path E (world m)) :: evs)%list
       /\ forall p, ~ In (EvRmtree p) evs.
Proof.
  intros Hv Hk Hrun.
  pose proof (generate_prompt_steps E url subdirectory branch o m Hv) as Hs.
  pose proof (clone_trace E url branch m) as Hc. cbv zeta in Hc.
  rewrite Hk in Hc. destruct Hc as (Ht1 & Hd1 & Hok).
  set (d := temp_path E (world m)) in *.
  destruct (_clone_repository E url branch m) as [[repo_dir | e] m1].
  2:{ rewrite Hs in Hrun. injection Hrun as <- <-.
      cbn [snd] in Ht1, Hd1. split; [exact Hd1 |].
      eexists. split; [exact Ht1 |].
      intros p [H | []]. discriminate. }
  cbn [snd fst] in Ht1, Hd1, Hok.
  pose proof (subdirectory_trace repo_dir subdirectory m1) as Hsub.
  cbv zeta in Hsub. destruct Hsub as (Ht2 & Hd2).
  assert (Hcheck : forall p,
             ~ In (EvRmtree p) (subdirectory_check repo_dir subdirectory)).
  { intros p. unfold subdirectory_check.
    destruct subdirectory as [sub |];
      [destruct (Py.truthy_str (Some sub)) |]; cbn;
      intros H; repeat destruct H as [H | H]; try discriminate; exact H. }
  destruct (_get_subdirectory_path repo_dir subdirectory m1)
    as [[target | e] m2]; cbn [snd] in Ht2, Hd2.
  2:{ rewrite Hs in Hrun. injection Hrun as <- <-.
      split; [congruence |].
      eexists. split.
      - rewrite Ht2, Ht1, <- app_assoc. cbn [app]. reflexivity.
      - intros p [H | H]; [discriminate | exact (Hcheck p H)]. }
  rewrite Hs in Hrun.
  pose proof (run_trace E target o m2) as Ht3.
  pose proof (run_keeps_self E target o m2) as Hd3.
  rewrite Hrun in Ht3, Hd3. cbn [snd] in Ht3, Hd3.
  split; [congruence |].
  eexists. split.
  - rewrite Ht3, Ht2, Ht1, <- !app_assoc. cbn [app]. reflexivity.
  - intros p [H | H]; [discriminate |].
    apply in_app_or in H. destruct H as [H | [H | []]];
      [exact (Hcheck p H) | discriminate].
Qed.

(** The body of the [with] statement: the outcome of [generate_prompt],
    after a print when JSON was asked for and produced. *)
Lemma main_body_equation E url subdirectory branch o m :
  main_body E url subdirectory branch o m =
    match generate_prompt E url subdirectory branch o m with
    | (Ok v, m1) =>
        if wants_json o
        then (Ok v,
              {| self := self m1;
                 world :=
                   log (EvPrint (json_dumps E v))
                     {| fs := fs (world m1);
                        out_stream := out_stream (world m1) ++ json_dumps E v
                                      ++ String "010" EmptyString;
                        err_stream := err_stream (world m1);
                        trace := trace (world m1) |} |})
        else (Ok v, m1)
    | (Raise e, m1) => (Raise e, m1)
    end.
Proof.
  unfold main_body, bind.
  destruct (generate_prompt E url subdirectory branch o m) as [[v | e] m1];
    [| reflexivity].
  destruct (wants_json o); reflexivity.
Qed.

(** A request that fails validation leaves the scope with the world
    as it found it: there is no directory to remove. *)
Lemma scoped_generate_invalid E url subdirectory branch o w :
  _validate_github_url E url <> Ok true ->
  exists msg,
    scoped_generate E url subdirectory branch o w = (Raise (ValueError msg), w).
Proof.
  intros Hv. unfold scoped_generate, with_Repo2Prompt.
  rewrite main_body_equation.
  destruct (generate_prompt_invalid E url subdirectory branch o
              {| self := __init__; world := w |} Hv) as (msg & Hg & _).
  rewrite Hg, exit_unassigned by reflexivity.
  exists msg. reflexivity.
Qed.

(** C5: [generate_prompt] validates, clones, resolves the subdirectory
    and invokes the generator in this order, each step on the machine
    the step before left, and the first step that raises ends the run
    with its exception and its machine, so that nothing of a later step
    is in the trace.  For a URL whose host is not [github.com] or
    [www.github.com], and for one that validation answers with false,
    the run ends with a [ValueError], the validation error, on the
    machine exactly as it was: no event, no directory made, no process
    started, no [temp_dir] assigned.  A URL that validation accepts goes
    on to the clone step, which makes the directory and runs [git]
    (unless no directory can be made, in which case nothing is run); a
    clone that returns goes on to the subdirectory check, and a
    subdirectory that resolves goes on to the one run of the
    generator. *)
Theorem generate_prompt_order E url subdirectory branch o m :
  let d := temp_path E (world m) in
  let git := EvRun (clone_cmd url branch d) true in
  let generate := generate_prompt E url subdirectory branch o m in
  (host_is_github E url = false ->
   exists msg, generate = (Raise (ValueError msg), m))
  /\ (_validate_github_url E url = Ok false ->
      generate
      = (Raise (ValueError ("Invalid GitHub repository URL: " ++ url)), m))
  /\ (_validate_github_url E url = Ok true ->
      match _clone_repository E url branch m with
      | (Raise e, m1) =>
          generate = (Raise e, m1)
          /\ trace (world m1)
             = (trace (world m)
                ++ match mkdtemp_error E (fs (world m)) with
                   | Some _ => []
                   | None => [EvMkdtemp d; git]
                   end)%list
      | (Ok repo_dir, m1) =>
          repo_dir = d
          /\ trace (world m1) = (trace (world m) ++ [EvMkdtemp d; git])%list
          /\ match _get_subdirectory_path d subdirectory m1 with
             | (Raise e, m2) =>
                 generate = (Raise e, m2)
                 /\ trace (world m2)
                    = (trace (world m1)
                       ++ subdirectory_check d subdirectory)%list
             | (Ok target, m2) =>
                 generate = _run_code2prompt E target o m2
                 /\ trace (world m2)
                    = (trace (world m1)
                       ++ subdirectory_check d subdirectory)%list
                 /\ trace (world (snd generate))
                    = (trace (world m2)
                       ++ [EvRun (final_cmd target o) (wants_json o)])%list
             end
      end).
Proof.
  intros d git generate. subst generate.
  split; [| split].
  - intros Hh.
    assert (Hne : _validate_github_url E url <> Ok true).
    { intros Hv. apply validate_true_host in Hv. congruence. }
    destruct (generate_prompt_invalid E url subdirectory branch o m Hne)
      as (msg & Hg & _).
    eauto.
  - intros Hf.
    assert (Hne : _validate_github_url E url <> Ok true) by congruence.
    destruct (generate_prompt_invalid E url subdirectory branch o m Hne)
      as (msg & Hg & Hmsg).
    rewrite Hg, (Hmsg Hf). reflexivity.
  - intros Hv.
    pose proof (generate_prompt_steps E url subdirectory branch o m Hv) as Hs.
    pose proof (clone_trace E url branch m) as Hc. cbv zeta in Hc.
    fold d in Hc. fold git in Hc.
    destruct (_clone_repository E url branch m) as [[repo_dir | e] m1] eqn:Hrun.
    + destruct (mkdtemp_error E (fs (world m))) as [msg |];
        [discriminate |].
      destruct Hc as (Ht1 & _ & Hok). cbn [fst snd] in Ht1, Hok.
      specialize (Hok _ eq_refl). subst repo_dir.
      split; [reflexivity |]. split; [exact Ht1 |].
      pose proof (subdirectory_trace d subdirectory m1) as Hsub.
      cbv zeta in Hsub. destruct Hsub as (Ht2 & _).
      destruct (_get_subdirectory_path d subdirectory m1)
        as [[target | e] m2]; cbn [snd] in Ht2.
      * split; [exact Hs |]. split; [exact Ht2 |].
        rewrite Hs. apply run_trace.
      * split; [exact Hs | exact Ht2].
    + split; [exact Hs |].
      destruct (mkdtemp_error E (fs (world m))) as [msg |].
      * injection Hc as _ <-. now rewrite app_nil_r.
      * destruct Hc as (Ht1 & _). exact Ht1.
Qed.

Lemma generate_prompt_order_witness :
  generate_prompt Demo.quiet "https://gitlab.com/acme/widget" (Some "src")
    None no_options Demo.machine0
  = (Raise (ValueError
              "Invalid GitHub repository URL: https://gitlab.com/acme/widget"),
     Demo.machine0)
  /\ trace (world (snd (generate_prompt Demo.quiet
                          "https://github.com/acme/widget" (Some "docs")
                          None no_options Demo.machine0)))
     = [EvMkdtemp "/tmp/repo2prompt_k3x9w2ab";
        EvRun ["git"; "clone"; "https://github.com/acme/widget";
               "/tmp/repo2prompt_k3x9w2ab"] true;
        EvExists "/tmp/repo2prompt_k3x9w2ab/docs"].
Proof.
  split.
  - apply (proj1 (proj2 (generate_prompt_order
                           Demo.quiet "https://gitlab.com/acme/widget"
                           (Some "src") None no_options Demo.machine0))).
    reflexivity.
  - pose proof (proj2 (proj2 (generate_prompt_order
                                 Demo.quiet "https://github.com/acme/widget"
                                 (Some "docs") None no_options Demo.machine0))
                  eq_refl) as H.
    vm_compute in H. destruct H as (_ & _ & _ & Ht). exact Ht.
Defined.

(** ** Subdirectory resolution *)

(** [_get_subdirectory_path] never touches the file system, the object
    or the streams; at most it logs its one existence check. *)
Lemma subdirectory_no_mutation base_dir subdirectory m :
  let m' := snd (_get_subdirectory_path base_dir subdirectory m) in
  fs (world m') = fs (world m)
  /\ self m' = self m
  /\ out_stream (world m') = out_stream (world m)
  /\ err_stream (world m') = err_stream (world m).
Proof.
  rewrite subdirectory_equation.
  destruct subdirectory as [sub |]; [| now cbn].
  destruct (String.eqb sub ""); now cbn.
Qed.

(** C6, as stated, fails: the empty string is a subdirectory argument
    that is there, the joined path [/tmp/r/] does not exist, and yet the
    answer is the root, not an error and not the joined path. *)
Lemma empty_subdirectory_is_not_joined :
  fs Demo.world0 (OsPath.join "/tmp/r" "") = false
  /\ OsPath.join "/tmp/r" "" <> "/tmp/r"
  /\ _get_subdirectory_path "/tmp/r" (Some "") Demo.machine0
     = (Ok "/tmp/r", Demo.machine0).
Proof. split; [reflexivity | split; [discriminate | reflexivity]]. Qed.

(** C6 (amended): with no subdirectory the root comes back unchanged;
    with a subdirectory that is not the empty string the result is the
    join of root and subdirectory when that path exists and a
    [ValueError] naming the subdirectory when it does not; in every case
    the file system is left as it was. *)
Theorem get_subdirectory_path_spec base_dir subdirectory m :
  (subdirectory = None ->
   _get_subdirectory_path base_dir subdirectory m = (Ok base_dir, m))
  /\ (forall sub,
        subdirectory = Some sub -> sub <> "" ->
        fst (_get_subdirectory_path base_dir subdirectory m) =
          if fs (world m) (OsPath.join base_dir sub)
          then Ok (OsPath.join base_dir sub)
          else Raise (ValueError ("Subdirectory '" ++ sub
                                  ++ "' does not exist in the repository")))
  /\ fs (world (snd (_get_subdirectory_path base_dir subdirectory m)))
     = fs (world m).
Proof.
  split; [| split].
  - intros ->. reflexivity.
  - intros sub -> Hne. rewrite subdirectory_equation.
    apply String.eqb_neq in Hne. rewrite Hne. reflexivity.
  - apply subdirectory_no_mutation.
Qed.

Lemma get_subdirectory_path_spec_witness :
  fst (_get_subdirectory_path "/tmp/r" (Some "docs") Demo.machine0)
  = Raise (ValueError "Subdirectory 'docs' does not exist in the repository").
Proof.
  apply (proj1 (proj2 (get_subdirectory_path_spec
                         "/tmp/r" (Some "docs") Demo.machine0))
           "docs" eq_refl).
  discriminate.
Defined.

(** ** Empty values *)

Lemma final_cmd_include_empty directory o :
  final_cmd directory (with_include (Some []) o)
  = final_cmd directory (with_include None o).
Proof. reflexivity. Qed.

Lemma final_cmd_exclude_empty directory o :
  final_cmd directory (with_exclude (Some []) o)
  = final_cmd directory (with_exclude None o).
Proof. reflexivity. Qed.

(** Two option records that yield the same command and mode run the
    same. *)
Lemma run_code2prompt_ext E directory o1 o2 m :
  final_cmd directory o1 = final_cmd directory o2 ->
  wants_json o1 = wants_json o2 ->
  _run_code2prompt E directory o1 m = _run_code2prompt E directory o2 m.
Proof.
  intros Hc Hj. rewrite !run_equation. cbv zeta. rewrite Hc, Hj. reflexivity.
Qed.

(** C10: an empty-string subdirectory is treated as an absent one: the
    root comes back, the machine is untouched (so no existence check was
    made or logged) and no error is raised.  An empty include or exclude
    list is treated as an absent list: the command, and with it the run,
    is the one for no list at all, so no [--include] or [--exclude] is
    added on its account. *)
Theorem empty_values_are_absent E base_dir directory o m :
  _get_subdirectory_path base_dir (Some "") m = (Ok base_dir, m)
  /\ _get_subdirectory_path base_dir (Some "") m
     = _get_subdirectory_path base_dir None m
  /\ extend_globs "--include" (Some []) = []
  /\ extend_globs "--exclude" (Some []) = []
  /\ final_cmd directory (with_include (Some []) o)
     = final_cmd directory (with_include None o)
  /\ final_cmd directory (with_exclude (Some []) o)
     = final_cmd directory (with_exclude None o)
  /\ _run_code2prompt E directory (with_include (Some []) o) m
     = _run_code2prompt E directory (with_include None o) m
  /\ _run_code2prompt E directory (with_exclude (Some []) o) m
     = _run_code2prompt E directory (with_exclude None o) m
  /\ final_cmd directory
       (with_exclude (Some []) (with_include (Some []) no_options))
     = ["code2prompt"; directory].
Proof.
  split; [apply subdirectory_equation |].
  split; [apply subdirectory_equation |].
  split; [reflexivity |]. split; [reflexivity |].
  split; [apply final_cmd_include_empty |].
  split; [apply final_cmd_exclude_empty |].
  split; [apply run_code2prompt_ext; reflexivity |].
  split; [apply run_code2prompt_ext; reflexivity |].
  reflexivity.
Qed.

(** ** Failure of the clone *)




(** ** Removal of the temporary directory *)

(** C1, as stated, fails: [generate_prompt] itself returns with the
    directory and its contents still on disk.  Here the clone and the
    generator both succeed. *)
Lemma generate_prompt_leaves_directory :
  let run := generate_prompt Demo.quiet "https://github.com/acme/widget"
               None None no_options Demo.machine0 in
  fst run = Ok success_marker
  /\ temp_dir (self (snd run)) = Some "/tmp/repo2prompt_k3x9w2ab"
  /\ fs (world (snd run)) "/tmp/repo2prompt_k3x9w2ab" = true
  /\ fs (world (snd run)) "/tmp/repo2prompt_k3x9w2ab/README.md" = true
  /\ ~ In (EvRmtree "/tmp/repo2prompt_k3x9w2ab") (trace (world (snd run))).
Proof.
  cbv zeta. repeat split; try reflexivity.
  cbn. intros [H | [H | [H | []]]]; discriminate.
Qed.

(** Leaving the scope after a request that passed validation and got
    its directory: the outcome is that of [generate_prompt], and the
    world is the one the body left, with the removal done last. *)
Lemma scoped_generate_valid E url subdirectory branch o w :
  _validate_github_url E url = Ok true ->
  mkdtemp_error E (fs w) = None ->
  let d := temp_path E w in
  let m0 := {| self := __init__; world := w |} in
  let m1 := snd (main_body E url subdirectory branch o m0) in
  scoped_generate E url subdirectory branch o w
  = (fst (generate_prompt E url subdirectory branch o m0),
     log (EvRmtree d)
       (with_fs (Fs.remove_tree (resists_removal E (fs (world m1)))
                   d (fs (world m1))) (world m1)))
  /\ exists evs,
       trace (world m1) = (trace w ++ EvMkdtemp d :: evs)%list
       /\ forall p, ~ In (EvRmtree p) evs.
Proof.
  intros Hv Hk d m0 m1. subst m1.
  unfold scoped_generate, with_Repo2Prompt. fold m0.
  rewrite main_body_equation.
  destruct (generate_prompt E url subdirectory branch o m0)
    as [r0 m1] eqn:Hg.
  destruct (generate_prompt_valid_run E url subdirectory branch o m0 r0 m1
              Hv Hk Hg) as (Hd & evs & Ht & Hno).
  cbn [world m0] in Hd, Ht. fold d in Hd, Ht.
  assert (Htruthy : Py.truthy_str (Some d) = true)
    by apply temp_path_truthy.
  destruct r0 as [v | e]; [destruct (wants_json o) |];
    rewrite (exit_assigned _ _ d) by (cbn [self]; assumption);
    cbn [fst snd world]; (split; [reflexivity |]).
  - exists (evs ++ [EvPrint (json_dumps E v)])%list. split.
    + cbn [log trace]. rewrite Ht, <- app_assoc. reflexivity.
    + intros p Hin. apply in_app_or in Hin. destruct Hin as [Hin | Hin].
      * exact (Hno p Hin).
      * destruct Hin as [Hin | []]. discriminate.
  - exists evs. split; [exact Ht | exact Hno].
  - exists evs. split; [exact Ht | exact Hno].
Qed.

(** C1 (amended): the temporary directory is removed when the
    [with Repo2Prompt()] scope around [generate_prompt] is left, not
    when [generate_prompt] returns, and it is removed as far as
    [shutil.rmtree(..., ignore_errors=True)] gets.  For every request
    that gets past validation and for which the clone step makes its
    directory [d], whatever the outcome (a result, a missing
    subdirectory, a failed clone or generator, output that does not
    decode or parse): leaving the scope removes [d] and all beneath it
    that does not resist removal; what is left beneath [d] was there
    before and resisted; the rest of the disk is untouched; the removal
    is the last thing done and the only removal; and the outcome is the
    one [generate_prompt] produced, also when something resisted.  When
    the clone succeeds with [d] on disk and the subdirectory resolves,
    the generator is started in a world in which [d] still exists. *)
Theorem scoped_generate_removes_temp_dir E url subdirectory branch o w r w' :
  _validate_github_url E url = Ok true ->
  mkdtemp_error E (fs w) = None ->
  scoped_generate E url subdirectory branch o w = (r, w') ->
  let d := temp_path E w in
  let m0 := {| self := __init__; world := w |} in
  let before := fs (world (snd (main_body E url subdirectory branch o m0))) in
  (forall q, Fs.beneath d q = true -> resists_removal E before q = false ->
             fs w' q = false)
  /\ (forall q, Fs.beneath d q = true -> fs w' q = true ->
                before q = true /\ resists_removal E before q = true)
  /\ (forall q, Fs.beneath d q = false -> fs w' q = before q)
  /\ (exists evs,
        trace w' = (trace w ++ EvMkdtemp d :: evs ++ [EvRmtree d])%list
        /\ forall p, ~ In (EvRmtree p) evs)
  /\ r = fst (generate_prompt E url subdirectory branch o m0)
  /\ (forall m1 target m2,
        _clone_repository E url branch m0 = (Ok d, m1) ->
        fs (world m1) d = true ->
        _get_subdirectory_path d subdirectory m1 = (Ok target, m2) ->
        fs (world m2) d = true
        /\ generate_prompt E url subdirectory branch o m0
           = _run_code2prompt E target o m2).
Proof.
  intros Hv Hk Hrun d m0 before.
  destruct (scoped_generate_valid E url subdirectory branch o w Hv Hk)
    as (Hs & evs & Ht & Hno).
  fold d in Hs, Ht. fold m0 in Hs, Ht. fold before in Hs.
  rewrite Hs in Hrun. injection Hrun as <- <-.
  cbn [log with_fs fs trace].
  split; [| split; [| split; [| split; [| split]]]].
  - intros q Hq Hr. now apply remove_tree_gone.
  - intros q Hq. apply remove_tree_left. exact Hq.
  - intros q Hq. now apply remove_tree_kept.
  - exists evs. split; [| exact Hno].
    rewrite Ht, <- app_assoc. reflexivity.
  - reflexivity.
  - intros m1' target m2 Hc Hex Hsub. split.
    + pose proof (subdirectory_no_mutation d subdirectory m1') as Hm.
      rewrite Hsub in Hm. cbn [snd] in Hm. destruct Hm as (-> & _).
      exact Hex.
    + pose proof (generate_prompt_steps E url subdirectory branch o m0 Hv)
        as Hst.
      rewrite Hc, Hsub in Hst. exact Hst.
Qed.

Lemma scoped_generate_removes_temp_dir_witness :
  fs (snd (scoped_generate Demo.quiet "https://github.com/acme/widget"
             (Some "src") (Some "main") no_options Demo.world0))
     "/tmp/repo2prompt_k3x9w2ab/src" = false.
Proof.
  apply (proj1 (scoped_generate_removes_temp_dir
                  Demo.quiet "https://github.com/acme/widget"
                  (Some "src") (Some "main") no_options Demo.world0
                  _ _ eq_refl eq_refl eq_refl)); reflexivity.
Defined.

(** ** Invoking the generator *)

Lemma wants_json_false o :
  output_format o <> Some "json" -> wants_json o = false.
Proof.
  unfold wants_json. destruct (output_format o) as [f |]; [| reflexivity].
  intros H. apply String.eqb_neq. congruence.
Qed.

Lemma wants_json_true o :
  output_format o = Some "json" <-> wants_json o = true.
Proof.
  unfold wants_json. destruct (output_format o) as [f |].
  - rewrite String.eqb_eq. split; congruence.
  - split; discriminate.
Qed.




(** C8: for any output format other than ["json"], or none, the
    generator runs with its standard output and standard error going to
    the caller's own streams; nothing of them comes back to the program,
    so the error message has no diagnostic text.  Only the exit code
    decides: zero gives the success marker, anything else the
    [RuntimeError] of a failed invocation. *)
Theorem run_code2prompt_streaming E directory o m rc out err f :
  output_format o <> Some "json" ->
  spawn E (final_cmd directory o) (fs (world m)) = Exited rc out err f ->
  _run_code2prompt E directory o m =
    ((if rc =? 0 then Ok success_marker
      else Raise (RuntimeError "Failed to run code2prompt: None")),
     {| self := self m;
        world := log (EvRun (base_cmd directory o) false)
                   {| fs := f;
                      out_stream := out_stream (world m) ++ out;
                      err_stream := err_stream (world m) ++ err;
                      trace := trace (world m) |} |}).
Proof.
  intros Hj Hs. apply wants_json_false in Hj.
  rewrite run_equation. cbv zeta. rewrite Hs.
  unfold final_cmd, after_run. rewrite Hj. reflexivity.
Qed.

Lemma run_code2prompt_streaming_witness :
  let run := _run_code2prompt (Demo.env 0 3 "partial prompt" "boom") "/tmp/repo"
               Demo.glob_options Demo.machine0 in
  fst run = Raise (RuntimeError "Failed to run code2prompt: None")
  /\ out_stream (world (snd run)) = "partial prompt"
  /\ err_stream (world (snd run)) = "boom".
Proof.
  cbv zeta.
  rewrite (run_code2prompt_streaming
             (Demo.env 0 3 "partial prompt" "boom") "/tmp/repo"
             Demo.glob_options Demo.machine0 3 "partial prompt" "boom"
             (fun _ => false) ltac:(discriminate) eq_refl).
  repeat split.
Defined.

(** ** The command line *)

Lemma count_pair_cons a b x l :
  (count_pair a b l <= count_pair a b (x :: l))%nat.
Proof. destruct l as [| y l]; cbn [count_pair]; lia. Qed.

(** A pair in the middle adds one to whatever follows it. *)
Lemma count_pair_app_pair a b l1 l2 :
  (1 + count_pair a b l2 <= count_pair a b (l1 ++ a :: b :: l2))%nat.
Proof.
  induction l1 as [| x l1 IH].
  - cbn [app].
    change (count_pair a b (a :: b :: l2))
      with ((if String.eqb a a && String.eqb b b then 1 else 0)
            + count_pair a b (b :: l2))%nat.
    rewrite !String.eqb_refl. cbn [andb].
    pose proof (count_pair_cons a b b l2). lia.
  - etransitivity; [exact IH |]. apply count_pair_cons.
Qed.

(** Whatever else is asked for, asking for JSON puts [-O json] on the
    command line at least twice. *)
Lemma json_flag_repeated directory o :
  output_format o = Some "json" ->
  (2 <= count_pair "-O" "json" (final_cmd directory o))%nat.
Proof.
  intros Hj. unfold final_cmd.
  rewrite (proj1 (wants_json_true o) Hj).
  pose (head := (["code2prompt"; directory]
                 ++ extend_str "--template" (template o)
                 ++ extend_globs "--include" (include o)
                 ++ extend_globs "--exclude" (exclude o)
                 ++ append_if "--tokens" (count_tokens o)
                 ++ extend_str "--encoding" (encoding o)
                 ++ extend_str "--output" (output o))%list).
  pose (tail := (append_if "--diff" (diff o)
                 ++ append_if "--line-number" (line_number o)
                 ++ append_if "--no-codeblock" (no_codeblock o)
                 ++ append_if "--hidden" (hidden o)
                 ++ append_if "--no-ignore" (no_ignore o)
                 ++ extend_str "--git-diff-branch" (git_diff_branch o)
                 ++ extend_str "--git-log-branch" (git_log_branch o))%list).
  assert (Hb : (base_cmd directory o ++ ["-O"; "json"])%list
               = (head ++ "-O" :: "json" :: (tail ++ ["-O"; "json"]))%list).
  { unfold base_cmd, head, tail. rewrite Hj.
    cbn [extend_str Py.truthy_str String.eqb Ascii.eqb Bool.eqb negb].
    repeat rewrite <- app_assoc. reflexivity. }
  rewrite Hb.
  pose proof (count_pair_app_pair "-O" "json" head (tail ++ ["-O"; "json"])).
  pose proof (count_pair_app_pair "-O" "json" tail []) as H1.
  cbn [count_pair] in H1. lia.
Qed.

(** C3: with JSON as output format and everything else at its default,
    the argument vector given to the generator carries the pair
    [-O json] twice: once from the option itself and once more from the
    JSON branch. *)
Theorem json_flag_is_passed_twice E directory m :
  final_cmd directory Demo.json_options
  = ["code2prompt"; directory; "-O"; "json"; "-O"; "json"]
  /\ trace (world (snd (_run_code2prompt E directory Demo.json_options m)))
     = (trace (world m)
        ++ [EvRun ["code2prompt"; directory; "-O"; "json"; "-O"; "json"]
              true])%list
  /\ count_pair "-O" "json" (final_cmd directory Demo.json_options) = 2%nat.
Proof.
  split; [reflexivity |]. split; [apply run_trace |].
  cbn. rewrite andb_false_r. reflexivity.
Qed.

(** Every other option puts its flag on the command line once: with
    one option set and the rest at their defaults the command is the
    program, the directory and that option's flag. *)
Example one_flag_per_option directory :
  map (final_cmd directory)
    [ {| template := Some "t.hbs"; include := None; exclude := None;
         count_tokens := true; encoding := Some "cl100k";
         output := Some "out.md"; output_format := None; diff := true;
         line_number := true; no_codeblock := true; hidden := true;
         no_ignore := true; git_diff_branch := Some "dev";
         git_log_branch := Some "main" |};
      with_output_format (Some "yaml") no_options ]
  = [ ["code2prompt"; directory; "--template"; "t.hbs"; "--tokens";
       "--encoding"; "cl100k"; "--output"; "out.md"; "--diff";
       "--line-number"; "--no-codeblock"; "--hidden"; "--no-ignore";
       "--git-diff-branch"; "dev"; "--git-log-branch"; "main"];
      ["code2prompt"; directory; "-O"; "yaml"] ].
Proof. reflexivity. Qed.

(** ** Comma-joined globs *)

Lemma split_nonempty c s : Py.split c s <> [].
Proof.
  destruct s as [| d s]; cbn; [discriminate |].
  destruct (Ascii.eqb c d); [discriminate |].
  destruct (Py.split c s); discriminate.
Qed.

Lemma contains_cons c d s :
  Py.contains c (String d s) = false ->
  Ascii.eqb c d = false /\ Py.contains c s = false.
Proof.
  unfold Py.contains. cbn [Py.index_of].
  destruct (Ascii.eqb c d); [discriminate |].
  destruct (Py.index_of c s); [discriminate | auto].
Qed.

(** A field without the separator is one field. *)
Lemma split_free c s : Py.contains c s = false -> Py.split c s = [s].
Proof.
  induction s as [| d s IH]; intros H; [reflexivity |].
  apply contains_cons in H. destruct H as [Hd Hs].
  cbn [Py.split]. rewrite Hd, (IH Hs). reflexivity.
Qed.

(** Splitting cuts at the first separator after a field without one. *)
Lemma split_field c a rest :
  Py.contains c a = false ->
  Py.split c (a ++ String c rest) = a :: Py.split c rest.
Proof.
  induction a as [| d a IH]; intros H.
  - cbn. now rewrite Ascii.eqb_refl.
  - apply contains_cons in H. destruct H as [Hd Ha].
    cbn [append Py.split]. rewrite Hd, (IH Ha). reflexivity.
Qed.

(** Joining keeps the elements and their order: splitting the joined
    text at the commas gives the list back. *)
Lemma split_join l :
  l <> [] -> free_of "," l -> Py.split "," (Py.join "," l) = l.
Proof.
  intros Hne Hfree. induction Hfree as [| a l Ha Hl IH]; [contradiction |].
  destruct l as [| b l].
  - cbn [Py.join]. now apply split_free.
  - change (Py.join "," (a :: b :: l))
      with (a ++ String "," (Py.join "," (b :: l))).
    rewrite (split_field _ _ _ Ha), IH; [reflexivity | discriminate].
Qed.

(** What [main] passes on is what the user typed: joining the fields
    of a comma-separated argument restores it. *)
Lemma join_split s : Py.join "," (Py.split "," s) = s.
Proof.
  induction s as [| d s IH]; [reflexivity |].
  cbn [Py.split]. pose proof (split_nonempty "," s) as Hne.
  destruct (Ascii.eqb_spec "," d) as [<- | Hd].
  - destruct (Py.split "," s) as [| f fs] eqn:Hs; [contradiction |].
    change (Py.join "," ("" :: f :: fs))
      with (String "," (Py.join "," (f :: fs))).
    now rewrite IH.
  - destruct (Py.split "," s) as [| f fs] eqn:Hs; [contradiction |].
    destruct fs as [| g fs].
    + cbn [Py.join] in *. now rewrite IH.
    + change (Py.join "," (String d f :: g :: fs))
        with (String d (Py.join "," (f :: g :: fs))).
      now rewrite IH.
Qed.

(** From the command line of [main] to the command line of the
    generator a glob argument passes unchanged. *)
Lemma cli_globs_pass_through flag s :
  s <> "" -> extend_globs flag (split_globs (Some s)) = [flag; s].
Proof.
  intros Hne. unfold split_globs, Py.truthy_str.
  apply String.eqb_neq in Hne. rewrite Hne. cbn [negb extend_globs].
  pose proof (split_nonempty "," s) as Hs.
  pose proof (join_split s) as Hj.
  destruct (Py.split "," s) as [| f fs]; [contradiction |].
  cbn [Py.truthy_list]. now rewrite Hj.
Qed.

(** C9: for include [*.py], [*.md] and exclude [tests/*] the command
    given to the generator is the program, the directory and
    [--include *.py,*.md --exclude tests/*].  In general a non-empty
    glob list becomes its flag followed by the elements joined with
    commas, include before exclude, right after the template; joining
    keeps the elements in their order, so that splitting at the commas
    restores the list. *)
Theorem globs_are_comma_joined E directory m :
  final_cmd directory Demo.glob_options
  = ["code2prompt"; directory; "--include"; "*.py,*.md";
     "--exclude"; "tests/*"]
  /\ trace (world (snd (_run_code2prompt E directory Demo.glob_options m)))
     = (trace (world m)
        ++ [EvRun ["code2prompt"; directory; "--include"; "*.py,*.md";
                   "--exclude"; "tests/*"] false])%list
  /\ (forall o inc exc,
        include o = Some inc -> inc <> [] ->
        exclude o = Some exc -> exc <> [] ->
        exists rest,
          base_cmd directory o
          = (["code2prompt"; directory]
             ++ extend_str "--template" (template o)
             ++ ["--include"; Py.join "," inc;
                 "--exclude"; Py.join "," exc]
             ++ rest)%list)
  /\ (forall flag l, l <> [] ->
                     extend_globs flag (Some l) = [flag; Py.join "," l])
  /\ (forall a b l, Py.join "," (a :: b :: l)
                    = a ++ "," ++ Py.join "," (b :: l))
  /\ (forall l, l <> [] -> free_of "," l ->
                Py.split "," (Py.join "," l) = l).
Proof.
  split; [reflexivity |]. split; [apply run_trace |].
  split; [| split; [| split]].
  - intros o inc exc Hi Hin He Hen. unfold base_cmd. rewrite Hi, He.
    destruct inc as [| i inc]; [contradiction |].
    destruct exc as [| e exc]; [contradiction |].
    eexists. cbn [extend_globs Py.truthy_list].
    repeat rewrite <- app_assoc. reflexivity.
  - intros flag [| a l] Hne; [contradiction | reflexivity].
  - reflexivity.
  - apply split_join.
Qed.

Lemma globs_are_comma_joined_witness :
  extend_globs "--include" (Some ["*.py"; "*.md"]) = ["--include"; "*.py,*.md"]
  /\ Py.split "," "*.py,*.md" = ["*.py"; "*.md"].
Proof.
  pose proof (globs_are_comma_joined Demo.quiet "/tmp/repo" Demo.machine0)
    as (_ & _ & _ & Hflag & _ & Hsplit).
  split.
  - apply (Hflag "--include" ["*.py"; "*.md"]). discriminate.
  - apply (Hsplit ["*.py"; "*.md"]); [discriminate |].
    repeat constructor.
Defined.

(** ** A request from end to end *)

(** The request of the specification's last test: a clone that puts
    [src] into the directory, a generator that exits with zero after
    printing the status document, JSON asked for.  The result is the
    parsed document, it is printed inside the scope, and afterwards
    neither the directory nor anything beneath it is on disk. *)
Example end_to_end :
  let run := scoped_generate (Demo.env 0 0 Demo.status_text "")
               "https://github.com/acme/widget" (Some "src") (Some "main")
               Demo.json_options Demo.world0 in
  fst run = Ok success_marker
  /\ fs (snd run) "/tmp/repo2prompt_k3x9w2ab" = false
  /\ fs (snd run) "/tmp/repo2prompt_k3x9w2ab/src" = false
  /\ trace (snd run)
     = [EvMkdtemp "/tmp/repo2prompt_k3x9w2ab";
        EvRun ["git"; "clone"; "--branch"; "main";
               "https://github.com/acme/widget"; "/tmp/repo2prompt_k3x9w2ab"]
          true;
        EvExists "/tmp/repo2prompt_k3x9w2ab/src";
        EvRun ["code2prompt"; "/tmp/repo2prompt_k3x9w2ab/src";
               "-O"; "json"; "-O"; "json"] true;
        EvPrint (Demo.dumps success_marker);
        EvRmtree "/tmp/repo2prompt_k3x9w2ab"].
Proof. cbv zeta. repeat split. Qed.

(** The five ways a request can end once the directory exists: a
    result, a missing subdirectory, a failed generator, output that is
    not JSON, a failed clone.  Each time the scope hands on the outcome
    and, on a disk where nothing resists removal, leaves no directory
    behind. *)
Example every_exit_path_cleans_up :
  map (fun '(E, subdirectory, o) =>
         let run := scoped_generate E "https://github.com/acme/widget"
                      subdirectory None o Demo.world0 in
         (fst run, fs (snd run) "/tmp/repo2prompt_k3x9w2ab",
          fs (snd run) "/tmp/repo2prompt_k3x9w2ab/README.md"))
    [ (Demo.quiet, Some "src", no_options);
      (Demo.quiet, Some "docs", no_options);
      (Demo.env 0 3 "" "boom", None, no_options);
      (Demo.env 0 0 "<html>" "", None, Demo.json_options);
      (Demo.env 128 0 "" "", None, no_options) ]
  = [ (Ok success_marker, false, false);
      (Raise (ValueError "Subdirectory 'docs' does not exist in the repository"),
       false, false);
      (Raise (RuntimeError "Failed to run code2prompt: None"), false, false);
      (Raise (JSONDecodeError "Expecting value: line 1 column 1 (char 0)"),
       false, false);
      (Raise (RuntimeError
                "Failed to clone repository: fatal: repository not found"),
       false, false) ].
Proof. reflexivity. Qed.

(** Removal is best effort.  On a disk where the clone's [README.md]
    is held by another program, the request still ends with its result;
    the file and the directory above it are left, the rest of the tree
    is gone, and the removal was the last thing done. *)
Example removal_is_best_effort :
  let run := scoped_generate Demo.busy "https://github.com/acme/widget"
               None None no_options Demo.world0 in
  fst run = Ok success_marker
  /\ fs (snd run) "/tmp/repo2prompt_k3x9w2ab/README.md" = true
  /\ fs (snd run) "/tmp/repo2prompt_k3x9w2ab" = true
  /\ fs (snd run) "/tmp/repo2prompt_k3x9w2ab/src" = false
  /\ last (trace (snd run)) (EvPrint "")
     = EvRmtree "/tmp/repo2prompt_k3x9w2ab".
Proof. cbv zeta. repeat split. Qed.

(** On a full disk [mkdtemp] fails: the request ends with its [OSError],
    [git] is not run, no path is assigned and nothing is removed. *)
Example no_directory_no_removal :
  scoped_generate Demo.full_disk "https://github.com/acme/widget"
    None None no_options Demo.world0
  = (Raise (OSError "[Errno 28] No space left on device: '/tmp/repo2prompt_k3x9w2ab'"),
     Demo.world0).
Proof. reflexivity. Qed.

(** * Properties of the rest of the module *)

(** ** Splitting, joining, stripping *)

Lemma contains_false_cons c d s :
  Ascii.eqb c d = false -> Py.contains c s = false ->
  Py.contains c (String d s) = false.
Proof.
  unfold Py.contains. cbn [Py.index_of]. intros -> H.
  destruct (Py.index_of c s); [discriminate | reflexivity].
Qed.

Lemma contains_app c a b :
  Py.contains c (a ++ b) = Py.contains c a || Py.contains c b.
Proof.
  induction a as [| d a IH]; [reflexivity |].
  unfold Py.contains in *. cbn [append Py.index_of].
  destruct (Ascii.eqb c d); [reflexivity |].
  destruct (Py.index_of c (a ++ b)), (Py.index_of c a),
    (Py.index_of c b); cbn in *; congruence.
Qed.

Lemma contains_here c s : Py.contains c (String c s) = true.
Proof. unfold Py.contains. cbn. now rewrite Ascii.eqb_refl. Qed.

(** Splitting at a separator distributes over a separator in the
    middle. *)
Lemma split_app_sep c a b :
  Py.split c (a ++ String c b) = (Py.split c a ++ Py.split c b)%list.
Proof.
  induction a as [| d a IH].
  - cbn. now rewrite Ascii.eqb_refl.
  - cbn [append Py.split]. rewrite IH.
    destruct (Ascii.eqb c d); [reflexivity |].
    pose proof (split_nonempty c a) as Hne.
    destruct (Py.split c a) as [| f fs]; [contradiction | reflexivity].
Qed.

(** One more field than separators. *)
Lemma length_split c s : length (Py.split c s) = S (PyStr.count_char c s).
Proof.
  induction s as [| d s IH]; [reflexivity |].
  cbn [Py.split PyStr.count_char].
  destruct (Ascii.eqb c d).
  - cbn [length]. now rewrite IH.
  - pose proof (split_nonempty c s) as Hne.
    destruct (Py.split c s) as [| f fs]; [contradiction |].
    cbn [length] in *. exact IH.
Qed.

(** No field of a split contains the separator. *)
Lemma split_fields_free c s : free_of c (Py.split c s).
Proof.
  unfold free_of. induction s as [| d s IH]; [repeat constructor |].
  cbn [Py.split]. destruct (Ascii.eqb c d) eqn:Hd.
  - constructor; [reflexivity | exact IH].
  - destruct (Py.split c s) as [| f fs]; [repeat constructor |].
    + now apply contains_false_cons.
    + inversion IH as [| ? ? Hf Hfs]; subst.
      constructor; [now apply contains_false_cons | exact Hfs].
Qed.

(** Joining the fields of a split with the separator restores the
    text, whatever the separator. *)
Lemma join_split_char c s : Py.join (String c "") (Py.split c s) = s.
Proof.
  induction s as [| d s IH]; [reflexivity |].
  cbn [Py.split]. pose proof (split_nonempty c s) as Hne.
  destruct (Ascii.eqb_spec c d) as [<- | Hd];
    destruct (Py.split c s) as [| f fs] eqn:Hs; try contradiction.
  - change (Py.join (String c "") ("" :: f :: fs))
      with (String c (Py.join (String c "") (f :: fs))).
    now rewrite IH.
  - destruct fs as [| g fs].
    + cbn [Py.join] in *. now rewrite IH.
    + change (Py.join (String c "") (String d f :: g :: fs))
        with (String d (Py.join (String c "") (f :: g :: fs))).
      now rewrite IH.
Qed.

Lemma append_assoc (a b c : string) : (a ++ b) ++ c = a ++ b ++ c.
Proof. induction a as [| x a IH]; cbn; [reflexivity | now rewrite IH]. Qed.

Lemma append_nil_r (a : string) : a ++ "" = a.
Proof. induction a as [| x a IH]; cbn; [reflexivity | now rewrite IH]. Qed.

Lemma append_length (a b : string) :
  String.length (a ++ b) = (String.length a + String.length b)%nat.
Proof. induction a as [| x a IH]; cbn; [reflexivity | now rewrite IH]. Qed.

Lemma join_snoc sep l x :
  l <> [] -> Py.join sep (l ++ [x]) = Py.join sep l ++ sep ++ x.
Proof.
  induction l as [| a l IH]; [contradiction |]. intros _.
  destruct l as [| b l].
  - reflexivity.
  - change (Py.join sep ((a :: b :: l) ++ [x]))
      with (a ++ sep ++ Py.join sep ((b :: l) ++ [x])).
    rewrite IH by discriminate.
    change (Py.join sep (a :: b :: l)) with (a ++ sep ++ Py.join sep (b :: l)).
    now rewrite !append_assoc.
Qed.

Lemma count_char_app c a b :
  PyStr.count_char c (a ++ b)
  = (PyStr.count_char c a + PyStr.count_char c b)%nat.
Proof.
  induction a as [| d a IH]; [reflexivity |].
  cbn [append PyStr.count_char]. rewrite IH. lia.
Qed.

Lemma count_char_free c s :
  Py.contains c s = false -> PyStr.count_char c s = O.
Proof.
  induction s as [| d s IH]; [reflexivity |]. intros H.
  apply contains_cons in H. destruct H as [Hd Hs].
  cbn [PyStr.count_char]. rewrite Hd, (IH Hs). reflexivity.
Qed.

(** A text that keeps something under [rstrip] keeps all that stands
    before it. *)
Lemma rstrip_app_keep p a b :
  PyStr.rstrip p b <> "" -> PyStr.rstrip p (a ++ b) = a ++ PyStr.rstrip p b.
Proof.
  intros Hb. induction a as [| c a IH]; [reflexivity |].
  cbn [append PyStr.rstrip]. rewrite IH.
  destruct (a ++ PyStr.rstrip p b) eqn:Hab; [| reflexivity].
  destruct a; [cbn in Hab; contradiction | discriminate].
Qed.

(** Trailing characters of the stripped kind make no difference. *)
Lemma rstrip_app_stripped p s t :
  Py.forallb p t = true -> PyStr.rstrip p (s ++ t) = PyStr.rstrip p s.
Proof.
  intros Ht. assert (Hall : PyStr.rstrip p t = "").
  { induction t as [| c t IH]; [reflexivity |].
    cbn in Ht. apply andb_prop in Ht. destruct Ht as [Hc Ht].
    cbn [PyStr.rstrip]. now rewrite (IH Ht), Hc. }
  induction s as [| c s IH]; [exact Hall |].
  cbn [append PyStr.rstrip]. now rewrite IH.
Qed.

(** A text without characters of the stripped kind is left alone. *)
Lemma rstrip_free c s :
  Py.contains c s = false -> PyStr.rstrip (Ascii.eqb c) s = s.
Proof.
  induction s as [| d s IH]; [reflexivity |]. intros H.
  apply contains_cons in H. destruct H as [Hd Hs].
  cbn [PyStr.rstrip]. rewrite (IH Hs), Hd. now destruct s.
Qed.

Lemma drop_app_length a b : Py.drop (String.length a) (a ++ b) = b.
Proof. induction a as [| c a IH]; [now destruct b | exact IH]. Qed.

Lemma take_app_length a b : Py.take (String.length a) (a ++ b) = a.
Proof.
  induction a as [| c a IH]; [now destruct b |].
  cbn. now rewrite IH.
Qed.

Lemma take_length n s :
  (n <= String.length s)%nat -> String.length (Py.take n s) = n.
Proof.
  revert s. induction n as [| n IH]; intros [| c s] Hn; cbn in *;
    try reflexivity; try lia.
  rewrite IH; lia.
Qed.

(** [endswith] says what it should: the text is something followed by
    the suffix. *)
Lemma endswith_iff suffix s :
  PyStr.endswith suffix s = true <-> exists x, s = x ++ suffix.
Proof.
  unfold PyStr.endswith. rewrite String.eqb_eq. split.
  - intros H. exists (Py.take (String.length s - String.length suffix) s).
    pose proof (take_drop (String.length s - String.length suffix) s) as Htd.
    rewrite H in Htd. now symmetry.
  - intros (x & ->). rewrite append_length.
    replace (String.length x + String.length suffix - String.length suffix)%nat
      with (String.length x) by lia.
    apply drop_app_length.
Qed.

(** Two ways of cutting one text share a middle piece. *)
Lemma append_eq_append (a b x y : string) :
  a ++ b = x ++ y ->
  exists l, (a = x ++ l /\ y = l ++ b) \/ (x = a ++ l /\ b = l ++ y).
Proof.
  revert x. induction a as [| c a IH]; intros x H.
  - exists x. right. cbn in *. auto.
  - destruct x as [| d x].
    + exists (String c a). left. cbn in *. auto.
    + cbn in H. injection H as -> H. destruct (IH x H) as (l & [[-> ->] | [-> ->]]);
        exists l; [left | right]; auto.
Qed.

(** A suffix without the separator ends the text exactly when it ends
    the part after the last separator. *)
Lemma endswith_after_sep suffix a c b :
  Py.contains c suffix = false ->
  PyStr.endswith suffix (a ++ String c b) = PyStr.endswith suffix b.
Proof.
  intros Hfree.
  destruct (PyStr.endswith suffix b) eqn:Hb.
  - apply endswith_iff in Hb. destruct Hb as (x & ->).
    apply endswith_iff. exists (a ++ String c x).
    rewrite append_assoc. reflexivity.
  - destruct (PyStr.endswith suffix (a ++ String c b)) eqn:Hab;
      [| reflexivity].
    apply endswith_iff in Hab. destruct Hab as (x & Hx).
    destruct (append_eq_append _ _ _ _ Hx) as (l & [[_ Hs] | [_ Hs]]).
    + rewrite Hs, contains_app, contains_here, orb_true_r in Hfree.
      discriminate.
    + destruct l as [| d l].
      * cbn in Hs. rewrite <- Hs, contains_here in Hfree. discriminate.
      * cbn in Hs. injection Hs as _ Hs.
        assert (PyStr.endswith suffix b = true)
          by (apply endswith_iff; eauto).
        congruence.
Qed.

(** ** Owner and repository name *)

(** Trailing slashes are stripped first, so they never matter. *)
Lemma repo_url_trailing_slashes url tail :
  Py.forallb (Ascii.eqb "/") tail = true ->
  repo_url (url ++ tail) = repo_url url.
Proof.
  intros H. unfold repo_url. now rewrite rstrip_app_stripped.
Qed.

(** One [.git] at the end is cut off. *)
Lemma repo_url_dot_git u : repo_url (u ++ ".git") = u.
Proof.
  unfold repo_url. rewrite rstrip_app_keep by discriminate.
  change (PyStr.rstrip (Ascii.eqb "/") ".git") with ".git".
  assert (He : PyStr.endswith ".git" (u ++ ".git") = true)
    by (apply endswith_iff; eauto).
  rewrite He, append_length.
  replace (String.length u + String.length ".git" - 4)%nat
    with (String.length u) by (cbn; lia).
  apply take_app_length.
Qed.

Lemma nth_two_from_end (front : list string) a b :
  nth (length (front ++ [a; b]) - 2) (front ++ [a; b]) "" = a
  /\ nth (length (front ++ [a; b]) - 1) (front ++ [a; b]) "" = b.
Proof.
  rewrite length_app. cbn [length]. split.
  - rewrite app_nth2 by lia.
    replace (length front + 2 - 2 - length front)%nat with 0%nat by lia.
    reflexivity.
  - rewrite app_nth2 by lia.
    replace (length front + 2 - 1 - length front)%nat with 1%nat by lia.
    reflexivity.
Qed.

Lemma last_two (l : list string) :
  (2 <= length l)%nat -> exists front a b, l = (front ++ [a; b])%list.
Proof.
  induction l as [| x l IH]; cbn; [lia |]. intros Hl.
  destruct l as [| y l]; [cbn in Hl; lia |].
  destruct l as [| z l].
  - exists [], x, y. reflexivity.
  - destruct IH as (front & a & b & Hf); [cbn; lia |].
    exists (x :: front), a, b. cbn. now rewrite Hf.
Qed.

(** [_extract_repo_info] on a text that is already in shape. *)
Lemma extract_of_parts pre owner repo url :
  (2 <= PyStr.count_char "/" pre)%nat ->
  Py.contains "/" owner = false -> Py.contains "/" repo = false ->
  repo_url url = pre ++ "/" ++ owner ++ "/" ++ repo ->
  _extract_repo_info url = Ok [("owner", owner); ("repo", repo)].
Proof.
  intros Hpre Ho Hr Hu. unfold _extract_repo_info. rewrite Hu.
  change (pre ++ "/" ++ owner ++ "/" ++ repo)
    with (pre ++ String "/" (owner ++ String "/" repo)).
  rewrite !split_app_sep, (split_free _ _ Ho), (split_free _ _ Hr).
  change ([owner] ++ [repo])%list with [owner; repo].
  destruct (nth_two_from_end (Py.split "/" pre) owner repo) as [-> ->].
  rewrite length_app, length_split. cbn [length].
  destruct (Nat.ltb_spec (S (PyStr.count_char "/" pre) + 2) 5);
    [lia | reflexivity].
Qed.

(** X1: an address of the form [<prefix>/<owner>/<repo>], where the
    prefix holds at least two slashes (as [https://github.com] does),
    neither the owner nor the repository name holds a slash, and the
    repository name is not empty and does not itself end in [.git],
    yields that owner and that repository name; so does the same
    address with [.git], with a slash, or with both after it. *)
Theorem extract_repo_info_of_url pre owner repo :
  (2 <= PyStr.count_char "/" pre)%nat ->
  Py.contains "/" owner = false -> Py.contains "/" repo = false ->
  repo <> "" -> PyStr.endswith ".git" repo = false ->
  let u := pre ++ "/" ++ owner ++ "/" ++ repo in
  let info := Ok [("owner", owner); ("repo", repo)] in
  _extract_repo_info u = info
  /\ _extract_repo_info (u ++ ".git") = info
  /\ _extract_repo_info (u ++ "/") = info
  /\ _extract_repo_info (u ++ ".git/") = info.
Proof.
  intros Hpre Ho Hr Hne Hgit u info.
  assert (Hplain : repo_url u = u).
  { assert (Hu : u = (pre ++ "/" ++ owner ++ "/") ++ repo).
    { unfold u. rewrite append_assoc. cbn [append].
      now rewrite append_assoc. }
    unfold repo_url.
    assert (Hs : PyStr.rstrip (Ascii.eqb "/") u = u).
    { rewrite Hu at 1.
      rewrite rstrip_app_keep; rewrite (rstrip_free _ _ Hr);
        [now symmetry | exact Hne]. }
    rewrite Hs. unfold u.
    change (pre ++ "/" ++ owner ++ "/" ++ repo)
      with (pre ++ String "/" (owner ++ String "/" repo)).
    rewrite !endswith_after_sep by reflexivity. now rewrite Hgit. }
  assert (Hslash : forall x, repo_url (x ++ "/") = repo_url x)
    by (intros x; now apply repo_url_trailing_slashes).
  split; [| split; [| split]];
    apply (extract_of_parts pre); try assumption.
  - apply repo_url_dot_git.
  - now rewrite Hslash.
  - change (u ++ ".git/") with (u ++ ".git" ++ "/").
    rewrite <- append_assoc, Hslash. apply repo_url_dot_git.
Qed.

Lemma extract_repo_info_of_url_witness :
  _extract_repo_info "https://github.com/acme/widget.git/"
  = Ok [("owner", "acme"); ("repo", "widget")].
Proof.
  apply (extract_repo_info_of_url "https://github.com" "acme" "widget");
    first [reflexivity | discriminate | cbn; lia].
Defined.

(** X2: [_extract_repo_info] raises exactly when the address, trailing
    slashes and one [.git] taken off, holds fewer than four slashes, and
    the message shows the address in that form.  Otherwise the address
    in that form ends in [/<owner>/<repo>] for the owner and name
    returned, neither of which contains a slash. *)
Theorem extract_repo_info_cases url :
  let u := repo_url url in
  ((PyStr.count_char "/" u < 4)%nat ->
   _extract_repo_info url
   = Raise (ValueError ("Invalid GitHub URL format: " ++ u)))
  /\ ((4 <= PyStr.count_char "/" u)%nat ->
      exists pre owner repo,
        u = pre ++ "/" ++ owner ++ "/" ++ repo
        /\ Py.contains "/" owner = false /\ Py.contains "/" repo = false
        /\ _extract_repo_info url = Ok [("owner", owner); ("repo", repo)]).
Proof.
  intros u. split.
  - intros Hc. unfold _extract_repo_info. fold u. rewrite length_split.
    destruct (Nat.ltb_spec (S (PyStr.count_char "/" u)) 5);
      [reflexivity | lia].
  - intros Hc.
    pose proof (length_split "/" u) as Hlen.
    pose proof (split_fields_free "/" u) as Hfree.
    pose proof (join_split_char "/" u) as Hjoin.
    destruct (last_two (Py.split "/" u)) as (front & a & b & Hparts);
      [lia |].
    rewrite Hparts in Hlen, Hfree, Hjoin.
    rewrite length_app in Hlen. cbn [length] in Hlen.
    unfold free_of in Hfree. rewrite Forall_app in Hfree.
    destruct Hfree as [_ Hab]. inversion Hab as [| ? ? Ha Hb']; subst.
    inversion Hb' as [| ? ? Hb _]; subst.
    assert (Hfront : front <> []) by (destruct front; [cbn in Hlen; lia | discriminate]).
    change (front ++ [a; b])%list with (front ++ [a] ++ [b])%list in Hjoin.
    rewrite app_assoc, join_snoc in Hjoin
      by (destruct front; discriminate).
    rewrite join_snoc in Hjoin by exact Hfront.
    rewrite append_assoc in Hjoin.
    exists (Py.join "/" front), a, b.
    split; [now symmetry |]. split; [exact Ha |]. split; [exact Hb |].
    apply (extract_of_parts (Py.join "/" front));
      [| exact Ha | exact Hb | now symmetry].
    assert (Hcount : PyStr.count_char "/" u
                     = (PyStr.count_char "/" (Py.join "/" front) + 2)%nat).
    { rewrite <- Hjoin at 1.
      rewrite !count_char_app, (count_char_free _ _ Ha),
        (count_char_free _ _ Hb). cbn. lia. }
    lia.
Qed.

Lemma extract_repo_info_cases_witness :
  _extract_repo_info "github.com/acme/widget.git"
  = Raise (ValueError "Invalid GitHub URL format: github.com/acme/widget").
Proof.
  apply (proj1 (extract_repo_info_cases "github.com/acme/widget.git")).
  cbn. lia.
Defined.

(** X3: slashes at the end of the address never change what
    [_extract_repo_info] answers, result or error. *)
Theorem extract_repo_info_trailing_slashes url tail :
  Py.forallb (Ascii.eqb "/") tail = true ->
  _extract_repo_info (url ++ tail) = _extract_repo_info url.
Proof.
  intros H. unfold _extract_repo_info.
  now rewrite (repo_url_trailing_slashes url tail H).
Qed.

Lemma extract_repo_info_trailing_slashes_witness :
  _extract_repo_info ("https://github.com/acme/widget" ++ "///")
  = _extract_repo_info "https://github.com/acme/widget".
Proof.
  apply (extract_repo_info_trailing_slashes
           "https://github.com/acme/widget" "///").
  reflexivity.
Defined.

(** ** The scripts directory and [PATH] *)

Lemma prefix_append d x : String.prefix d (d ++ x) = true.
Proof.
  induction d as [| c d IH]; [now destruct x |].
  cbn. destruct (ascii_dec c c); [exact IH | contradiction].
Qed.

Lemma contains_str_prefix d x : PyStr.contains_str d (d ++ x) = true.
Proof.
  destruct (d ++ x) eqn:Hdx; cbn [PyStr.contains_str];
    rewrite <- Hdx, prefix_append; reflexivity.
Qed.

(** [get_scripts_dir] answers from the disk alone and changes nothing
    but the trace. *)
Lemma get_scripts_dir_spec H p :
  fst (get_scripts_dir H p) = scripts_dir H (fs (os p))
  /\ environ_PATH (snd (get_scripts_dir H p)) = environ_PATH p
  /\ fs (os (snd (get_scripts_dir H p))) = fs (os p)
  /\ out_stream (os (snd (get_scripts_dir H p))) = out_stream (os p)
  /\ err_stream (os (snd (get_scripts_dir H p))) = err_stream (os p).
Proof.
  unfold get_scripts_dir, scripts_dir, path_exists.
  destruct (is_windows H); [| now cbn].
  destruct (fs (os p) (roaming_scripts H)); now cbn.
Qed.

(** Printing lines touches neither [PATH], the disk nor standard
    error. *)
Lemma say_lines_spec lines p :
  let p' := fold_left (fun p line => say line p) lines p in
  environ_PATH p' = environ_PATH p
  /\ fs (os p') = fs (os p)
  /\ err_stream (os p') = err_stream (os p).
Proof.
  revert p. induction lines as [| l lines IH]; intros p; [now cbn |].
  cbn [fold_left]. destruct (IH (say l p)) as (H1 & H2 & H3).
  cbv zeta in *. rewrite H1, H2, H3. now cbn.
Qed.

(** [add_to_path_env], case by case, as far as [PATH], the disk and
    standard error go. *)
Lemma add_to_path_env_spec H p :
  let d := scripts_dir H (fs (os p)) in
  let p' := add_to_path_env H p in
  fs (os p') = fs (os p)
  /\ environ_PATH p'
     = (if is_windows H && fs (os p) d
           && negb (PyStr.contains_str d (getenv_PATH p))
        then Some (d ++ pathsep H ++ getenv_PATH p)
        else environ_PATH p)
  /\ err_stream (os p')
     = (if is_windows H && negb (fs (os p) d)
        then err_stream (os p)
             ++ ("Warning: Scripts directory " ++ d ++ " does not exist.")
             ++ newline
        else err_stream (os p)).
Proof.
  cbv zeta. unfold add_to_path_env.
  destruct (get_scripts_dir_spec H p) as (Hd & Hp & Hf & _ & He).
  destruct (get_scripts_dir H p) as [d p1]. cbn [fst snd] in *. subst d.
  unfold scripts_dir in *.
  destruct (is_windows H) eqn:Hw; cbn [negb andb]; [| now cbn].
  unfold path_exists. rewrite Hf.
  set (d := if fs (os p) (roaming_scripts H) then _ else _) in *.
  destruct (fs (os p) d) eqn:Hex; cbn [negb andb].
  - assert (Hg : getenv_PATH
                   {| environ_PATH := environ_PATH p1;
                      os := log (EvExists d) (os p1) |} = getenv_PATH p)
      by (unfold getenv_PATH; cbn [environ_PATH]; now rewrite Hp).
    rewrite Hg.
    destruct (PyStr.contains_str d (getenv_PATH p)); cbn [negb];
      match goal with
      | |- context [fold_left ?f ?l ?q] =>
          destruct (say_lines_spec l q) as (H1 & H2 & H3)
      end;
      cbv zeta in H1, H2, H3; rewrite H1, H2, H3; cbn; auto.
  - cbn. rewrite He. split; [assumption | split; [assumption | reflexivity]].
Qed.

(** X4: on Windows, when the scripts directory exists, does not occur
    anywhere in [PATH] and has no separator character in its name,
    [add_to_path_env] puts it in front of [PATH] and a following
    [check_path_env] finds it. *)
Theorem add_then_check H p :
  is_windows H = true ->
  let d := scripts_dir H (fs (os p)) in
  fs (os p) d = true ->
  PyStr.contains_str d (getenv_PATH p) = false ->
  Py.contains (os_pathsep H) d = false ->
  environ_PATH (add_to_path_env H p) = Some (d ++ pathsep H ++ getenv_PATH p)
  /\ fst (check_path_env H (add_to_path_env H p)) = true.
Proof.
  intros Hw d Hex Hsub Hsep.
  destruct (add_to_path_env_spec H p) as (Hf & Hp & _).
  cbv zeta in Hp. fold d in Hp. rewrite Hw, Hex, Hsub in Hp. cbn in Hp.
  split; [exact Hp |].
  unfold check_path_env. rewrite Hw.
  destruct (get_scripts_dir_spec H (add_to_path_env H p)) as (Hd' & Hp' & _).
  destruct (get_scripts_dir H (add_to_path_env H p)) as [d' p2].
  cbn [fst snd] in *. rewrite Hf in Hd'. fold d in Hd'. subst d'.
  unfold getenv_PATH. rewrite Hp', Hp. unfold pathsep. cbn [append].
  rewrite (split_field _ _ _ Hsep). cbn [existsb].
  now rewrite String.eqb_refl.
Qed.

Lemma add_then_check_witness :
  fst (check_path_env DemoHost.windows
         (add_to_path_env DemoHost.windows
            (DemoHost.process (Some "C:\Windows;C:\Tools")))) = true.
Proof.
  apply (add_then_check DemoHost.windows
           (DemoHost.process (Some "C:\Windows;C:\Tools"))); reflexivity.
Defined.

(** X5: [add_to_path_env] never drops or reorders what [PATH] held: the
    variable is left as it was or gets the scripts directory and a
    separator put in front.  It never touches the disk, and calling it
    a second time leaves [PATH] as the first call left it. *)
Theorem add_to_path_env_only_prepends H p :
  let d := scripts_dir H (fs (os p)) in
  let p' := add_to_path_env H p in
  (environ_PATH p' = environ_PATH p
   \/ environ_PATH p' = Some (d ++ pathsep H ++ getenv_PATH p))
  /\ fs (os p') = fs (os p)
  /\ environ_PATH (add_to_path_env H p') = environ_PATH p'.
Proof.
  cbv zeta.
  destruct (add_to_path_env_spec H p) as (Hf & Hp & _).
  destruct (add_to_path_env_spec H (add_to_path_env H p)) as (_ & Hp2 & _).
  cbv zeta in *. rewrite Hf in Hp2.
  set (d := scripts_dir H (fs (os p))) in *.
  split; [| split; [exact Hf |]].
  - rewrite Hp. destruct (_ && _); auto.
  - rewrite Hp2.
    destruct (is_windows H && fs (os p) d) eqn:Hwd; cbn [andb]; [| reflexivity].
    destruct (PyStr.contains_str d (getenv_PATH (add_to_path_env H p)))
      eqn:Hc; [reflexivity |].
    exfalso. unfold getenv_PATH at 1 in Hc. rewrite Hp in Hc.
    cbn [andb] in Hc.
    destruct (PyStr.contains_str d (getenv_PATH p)) eqn:Hc0; cbn [negb] in Hc.
    + unfold getenv_PATH in Hc0. congruence.
    + rewrite contains_str_prefix in Hc. discriminate.
Qed.

(** X6: the two functions do not test the same thing.  When the
    scripts directory occurs inside [PATH] without being one of its
    entries, [add_to_path_env] leaves [PATH] alone and [check_path_env]
    goes on answering false. *)
Theorem substring_is_not_entry H p :
  is_windows H = true ->
  let d := scripts_dir H (fs (os p)) in
  fs (os p) d = true ->
  PyStr.contains_str d (getenv_PATH p) = true ->
  fst (check_path_env H p) = false ->
  environ_PATH (add_to_path_env H p) = environ_PATH p
  /\ fst (check_path_env H (add_to_path_env H p)) = false.
Proof.
  intros Hw d Hex Hsub Hchk.
  destruct (add_to_path_env_spec H p) as (Hf & Hp & _).
  cbv zeta in Hp. fold d in Hp. rewrite Hw, Hex, Hsub in Hp. cbn in Hp.
  split; [exact Hp |].
  unfold check_path_env in *. rewrite Hw in *.
  destruct (get_scripts_dir_spec H p) as (Hd1 & Hp1 & _).
  destruct (get_scripts_dir_spec H (add_to_path_env H p)) as (Hd2 & Hp2 & _).
  destruct (get_scripts_dir H p) as [d1 p1].
  destruct (get_scripts_dir H (add_to_path_env H p)) as [d2 p2].
  cbn [fst snd] in *. rewrite Hf in Hd2. subst d1 d2.
  unfold getenv_PATH in *. rewrite Hp2, Hp. rewrite Hp1 in Hchk. exact Hchk.
Qed.

Lemma substring_is_not_entry_witness :
  fst (check_path_env DemoHost.windows
         (add_to_path_env DemoHost.windows
            (DemoHost.process
               (Some "C:\Windows;C:\Users\ada\AppData\Roaming\Python\Python311\Scripts\old"))))
  = false.
Proof.
  apply (substring_is_not_entry DemoHost.windows
           (DemoHost.process
              (Some "C:\Windows;C:\Users\ada\AppData\Roaming\Python\Python311\Scripts\old")));
    reflexivity.
Defined.

(** X7: on Windows, when the scripts directory [get_scripts_dir]
    settles on does not exist, [add_to_path_env] changes neither [PATH]
    nor standard output and writes one warning line to standard
    error. *)
Theorem add_to_path_env_missing_directory H p :
  is_windows H = true ->
  let d := scripts_dir H (fs (os p)) in
  fs (os p) d = false ->
  let p' := add_to_path_env H p in
  environ_PATH p' = environ_PATH p
  /\ out_stream (os p') = out_stream (os p)
  /\ err_stream (os p')
     = err_stream (os p)
       ++ ("Warning: Scripts directory " ++ d ++ " does not exist.")
       ++ newline.
Proof.
  intros Hw d Hex p'.
  destruct (add_to_path_env_spec H p) as (_ & Hp & He).
  cbv zeta in Hp, He. fold d in Hp, He. rewrite Hw, Hex in Hp, He.
  cbn in Hp, He. split; [exact Hp | split; [| exact He]].
  subst p'. unfold add_to_path_env. rewrite Hw. cbn [negb].
  destruct (get_scripts_dir_spec H p) as (Hd & _ & Hf & Ho & _).
  destruct (get_scripts_dir H p) as [d1 p1]. cbn [fst snd] in *.
  fold d in Hd. subst d1. unfold path_exists. rewrite Hf, Hex. cbn. exact Ho.
Qed.

Lemma add_to_path_env_missing_directory_witness :
  environ_PATH
    (add_to_path_env DemoHost.windows
       {| environ_PATH := Some "C:\Windows"; os := Demo.world0 |})
  = Some "C:\Windows".
Proof.
  apply (add_to_path_env_missing_directory DemoHost.windows
           {| environ_PATH := Some "C:\Windows"; os := Demo.world0 |});
    reflexivity.
Defined.

(** ** What [generate_prompt] can raise and what a result means *)







(** A result of [generate_prompt], read backwards. *)
Lemma generate_prompt_ok_inv E url subdirectory branch o m v m' :
  generate_prompt E url subdirectory branch o m = (Ok v, m') ->
  let d := temp_path E (world m) in
  _validate_github_url E url = Ok true
  /\ mkdtemp_error E (fs (world m)) = None
  /\ exists out1 err1 f1,
       spawn E (clone_cmd url branch d) (Fs.mkdir d (fs (world m)))
       = Exited 0 out1 err1 f1
       /\ (exists text1 diagnostics1,
             text_decode E out1 = inl text1
             /\ text_decode E err1 = inl diagnostics1)
       /\ exists target out2 err2 f2,
            spawn E (final_cmd target o) f1 = Exited 0 out2 err2 f2
            /\ ((Py.truthy_str subdirectory = false /\ target = d)
                \/ exists sub, subdirectory = Some sub /\ sub <> ""
                               /\ target = OsPath.join d sub
                               /\ f1 target = true)
            /\ (if wants_json o
                then exists text,
                       text_decode E out2 = inl text
                       /\ (exists diagnostics,
                             text_decode E err2 = inl diagnostics)
                       /\ json_loads E text = Parsed v
                else v = success_marker)
            /\ fs (world m') = f2.
Proof.
  intros Hrun d.
  destruct (validate_cases E url) as [Hv | Hv].
  2:{ assert (Hne : _validate_github_url E url <> Ok true).
      { destruct Hv as [Hv | (msg & Hv)]; rewrite Hv; discriminate. }
      destruct (generate_prompt_invalid E url subdirectory branch o m Hne)
        as (msg & Hg & _).
      rewrite Hg in Hrun. discriminate. }
  split; [exact Hv |].
  rewrite (generate_prompt_valid _ _ _ _ _ _ Hv) in Hrun.
  unfold bind in Hrun. rewrite clone_equation in Hrun. cbv zeta in Hrun.
  fold d in Hrun.
  destruct (mkdtemp_error E (fs (world m))) as [msg |];
    [discriminate |].
  split; [reflexivity |].
  destruct (spawn E (clone_cmd url branch d) _) as [msg | rc out1 err1 f1]
    eqn:Hgit in Hrun; [discriminate |].
  destruct (communicate_text E out1 err1) as [[text1 diagnostics1] | e0]
    eqn:Hc1 in Hrun; [| discriminate].
  destruct (Z.eqb_spec rc 0) as [-> | Hrc]; [| discriminate].
  exists out1, err1, f1. split; [exact Hgit |].
  split.
  { exists text1, diagnostics1. now apply communicate_text_ok. }
  rewrite subdirectory_equation in Hrun.
  assert (Hinvoke : forall target m1,
             _run_code2prompt E target o m1 = (Ok v, m') ->
             fs (world m1) = f1 ->
             exists out2 err2 f2,
               spawn E (final_cmd target o) f1 = Exited 0 out2 err2 f2
               /\ (if wants_json o
                   then exists text,
                          text_decode E out2 = inl text
                          /\ (exists diagnostics,
                                text_decode E err2 = inl diagnostics)
                          /\ json_loads E text = Parsed v
                   else v = success_marker)
               /\ fs (world m') = f2).
  { intros target m1 H Hf. rewrite run_equation in H. cbv zeta in H.
    rewrite Hf in H.
    destruct (spawn E (final_cmd target o) f1) as [msg | rc' out2 err2 f2]
      eqn:Hgen; [discriminate |].
    destruct (wants_json o).
    - destruct (communicate_text E out2 err2) as [[text diagnostics] | e0]
        eqn:Hc2; [| discriminate].
      apply communicate_text_ok in Hc2. destruct Hc2 as (Ho2 & He2).
      destruct (Z.eqb_spec rc' 0) as [-> | Hrc']; [| discriminate].
      exists out2, err2, f2. split; [reflexivity |].
      unfold json_loads_result in H.
      destruct (json_loads E text) as [v0 | | |] eqn:Hl; try discriminate.
      injection H as <- <-. split; [| reflexivity].
      exists text. split; [exact Ho2 | split; [eauto | exact Hl]].
    - destruct (Z.eqb_spec rc' 0) as [-> | Hrc']; [| discriminate].
      exists out2, err2, f2. split; [reflexivity |].
      injection H as <- <-. split; reflexivity. }
  destruct subdirectory as [sub |].
  - destruct (String.eqb_spec sub "") as [-> | Hsub].
    + destruct (Hinvoke _ _ Hrun eq_refl) as (out2 & err2 & f2 & H1 & H2 & H3).
      exists d, out2, err2, f2. repeat split; auto.
    + cbv zeta in Hrun. cbn [world log with_fs fs] in Hrun.
      destruct (f1 (OsPath.join d sub)) eqn:Hex; [| discriminate].
      destruct (Hinvoke _ _ Hrun eq_refl) as (out2 & err2 & f2 & H1 & H2 & H3).
      exists (OsPath.join d sub), out2, err2, f2.
      split; [exact H1 |]. split; [| split; assumption].
      right. exists sub. auto.
  - destruct (Hinvoke _ _ Hrun eq_refl) as (out2 & err2 & f2 & H1 & H2 & H3).
    exists d, out2, err2, f2. repeat split; auto.
Qed.



(** ** The installation check *)

Lemma check_installed_equation H E p :
  check_code2prompt_installed H E p =
    match spawn E version_probe (fs (os p)) with
    | NotStarted msg =>
        (if file_not_found H msg then Ok false else Raise (OSError msg),
         {| environ_PATH := environ_PATH p;
            os := log (EvRun version_probe true) (os p) |})
    | Exited rc out err f =>
        (match communicate_text E out err with
         | Ok _ => Ok (rc =? 0)
         | Raise e => Raise e
         end,
         {| environ_PATH := environ_PATH p;
            os := log (EvRun version_probe true)
                    {| fs := f; out_stream := out_stream (os p);
                       err_stream := err_stream (os p);
                       trace := trace (os p) |} |})
    end.
Proof.
  unfold check_code2prompt_installed, at_module_level, subprocess_run.
  cbn [world self]. fold version_probe.
  destruct (spawn E version_probe (fs (os p))) as [msg | rc out err f].
  - destruct (file_not_found H msg); reflexivity.
  - destruct (communicate_text E out err) as [[text diagnostics] | e] eqn:Hc.
    + destruct (rc =? 0); reflexivity.
    + destruct (communicate_text_raises _ _ _ _ Hc) as [msg ->]. reflexivity.
Qed.

(** The installation check, outcome by outcome. *)
Lemma installation_check_cases H E p :
  let r := fst (check_code2prompt_installed H E p) in
  let p' := snd (check_code2prompt_installed H E p) in
  (r = Ok true <->
   exists out err f text diagnostics,
     spawn E version_probe (fs (os p)) = Exited 0 out err f
     /\ text_decode E out = inl text
     /\ text_decode E err = inl diagnostics)
  /\ (forall e, r = Raise e ->
        (exists msg, e = OSError msg /\ file_not_found H msg = false
                     /\ spawn E version_probe (fs (os p)) = NotStarted msg)
        \/ (exists msg rc out err f,
              e = UnicodeDecodeError msg
              /\ spawn E version_probe (fs (os p)) = Exited rc out err f
              /\ communicate_text E out err = Raise e))
  /\ out_stream (os p') = out_stream (os p)
  /\ err_stream (os p') = err_stream (os p)
  /\ environ_PATH p' = environ_PATH p
  /\ trace (os p') = (trace (os p) ++ [EvRun version_probe true])%list.
Proof.
  cbv zeta. rewrite check_installed_equation.
  destruct (spawn E version_probe (fs (os p))) as [msg | rc out err f];
    cbn [fst snd].
  - split; [| split; [| now cbn]].
    + split; [| intros (? & ? & ? & ? & ? & ? & _); discriminate].
      destruct (file_not_found H msg); discriminate.
    + intros e. destruct (file_not_found H msg) eqn:Hm; [discriminate |].
      intros He. injection He as <-. left. eauto.
  - split; [| split; [| now cbn]].
    + split.
      * destruct (communicate_text E out err) as [[text diagnostics] | e]
          eqn:Hc; [| discriminate].
        intros Hr. injection Hr as Hr. apply Z.eqb_eq in Hr. subst.
        apply communicate_text_ok in Hc. destruct Hc as (Ho & He).
        exists out, err, f, text, diagnostics. auto.
      * intros (out' & err' & f' & text & diagnostics & Hs & Ho & He).
        injection Hs as -> -> -> _.
        rewrite (proj2 (communicate_text_ok E out' err' text diagnostics)
                   (conj Ho He)).
        reflexivity.
    + intros e.
      destruct (communicate_text E out err) as [[text diagnostics] | e0]
        eqn:Hc; [discriminate |].
      intros He. injection He as <-.
      destruct (communicate_text_raises _ _ _ _ Hc) as [msg ->].
      right. exists msg, rc, out, err, f. auto.
Qed.


Lemma installation_check_facts H E p :
  let p' := snd (check_code2prompt_installed H E p) in
  out_stream (os p') = out_stream (os p)
  /\ err_stream (os p') = err_stream (os p)
  /\ environ_PATH p' = environ_PATH p
  /\ trace (os p') = (trace (os p) ++ [EvRun version_probe true])%list.
Proof.
  cbv zeta. rewrite check_installed_equation.
  destruct (spawn E version_probe (fs (os p))); now cbn.
Qed.


(** ** [main] *)

Lemma say_err_lines_spec lines p :
  let p' := fold_left (fun p line => say_err line p) lines p in
  environ_PATH p' = environ_PATH p
  /\ fs (os p') = fs (os p)
  /\ out_stream (os p') = out_stream (os p)
  /\ trace (os p') = trace (os p).
Proof.
  revert p. induction lines as [| l lines IH]; intros p; [now cbn |].
  cbn [fold_left]. destruct (IH (say_err l p)) as (H1 & H2 & H3 & H4).
  cbv zeta in *. rewrite H1, H2, H3, H4. now cbn.
Qed.

(** The outcome of the scope is the outcome of [generate_prompt]. *)
Lemma scoped_outcome E url subdirectory branch o w :
  fst (scoped_generate E url subdirectory branch o w)
  = fst (generate_prompt E url subdirectory branch o
           {| self := __init__; world := w |}).
Proof.
  unfold scoped_generate, with_Repo2Prompt. rewrite main_body_equation.
  destruct (generate_prompt E url subdirectory branch o _) as [[v | e] m1];
    [destruct (wants_json o) |];
    destruct (__exit__ _ _) as [u m2]; reflexivity.
Qed.

(** A request that fails validation with a plain "no" leaves the scope
    with the world untouched and the validation message. *)
Lemma scoped_generate_rejected E url subdirectory branch o w :
  _validate_github_url E url = Ok false ->
  scoped_generate E url subdirectory branch o w
  = (Raise (ValueError ("Invalid GitHub repository URL: " ++ url)), w).
Proof.
  intros Hv. unfold scoped_generate, with_Repo2Prompt.
  rewrite main_body_equation.
  assert (Hne : _validate_github_url E url <> Ok true)
    by (rewrite Hv; discriminate).
  destruct (generate_prompt_invalid E url subdirectory branch o
              {| self := __init__; world := w |} Hne) as (msg & Hg & Hmsg).
  rewrite Hg, exit_unassigned by reflexivity.
  now rewrite (Hmsg Hv).
Qed.

(** [main] from the installation check on. *)
Lemma main_equation H E args p :
  main H E args p =
    let '(installed, p) :=
      check_code2prompt_installed H E (after_path_check H p) in
    match installed with
    | Raise e => (Uncaught e, p)
    | Ok false =>
        (SystemExit 1, fold_left (fun p line => say_err line p)
                         not_installed_advice p)
    | Ok true =>
        let '(r, w) :=
          scoped_generate E (Cli.github_url args) (Cli.subdirectory args)
            (Cli.branch args) (options_of args) (os p) in
        let p := {| environ_PATH := environ_PATH p; os := w |} in
        match r with
        | Ok _ => (Returned, p)
        | Raise (ValueError msg) | Raise (JSONDecodeError msg)
        | Raise (UnicodeDecodeError msg)
        | Raise (RuntimeError msg) | Raise (RecursionError msg) =>
            (SystemExit 1, say_err ("Error: " ++ msg) p)
        | Raise e => (Uncaught e, p)
        end
    end.
Proof.
  unfold main, after_path_check.
  destruct (check_path_env H p) as [in_path p1]. reflexivity.
Qed.

(** What [main] does to the disk and the trace after the scope is
    nothing: its last lines only write to standard error. *)
Lemma main_after_scope H E args p :
  let c := check_code2prompt_installed H E (after_path_check H p) in
  fst c = Ok true ->
  let w := snd (scoped_generate E (Cli.github_url args)
                  (Cli.subdirectory args) (Cli.branch args)
                  (options_of args) (os (snd c))) in
  fs (os (snd (main H E args p))) = fs w
  /\ trace (os (snd (main H E args p))) = trace w
  /\ out_stream (os (snd (main H E args p))) = out_stream w.
Proof.
  intros c Hc w. subst c w. rewrite main_equation.
  destruct (check_code2prompt_installed H E (after_path_check H p))
    as [r p2]. cbn [fst snd] in *. subst r.
  destruct (scoped_generate E _ _ _ _ (os p2)) as [[v | []] w];
    cbn [snd os say_err fs trace out_stream]; repeat split.
Qed.

(** X11: when the generator is not installed, [main] ends with
    [sys.exit(1)] before any work: after the path check the only thing
    done is the probe, so no directory was made and [git] was not run;
    standard error gets the four lines of advice and standard output
    nothing. *)
Theorem main_not_installed H E args p :
  let p1 := after_path_check H p in
  fst (check_code2prompt_installed H E p1) = Ok false ->
  let p' := snd (main H E args p) in
  fst (main H E args p) = SystemExit 1
  /\ trace (os p') = (trace (os p1) ++ [EvRun version_probe true])%list
  /\ out_stream (os p') = out_stream (os p1)
  /\ err_stream (os p')
     = err_stream (os p1) ++ lines_text not_installed_advice
  /\ environ_PATH p' = environ_PATH p1.
Proof.
  intros p1 Hc p'. subst p'. rewrite main_equation. fold p1.
  pose proof (installation_check_facts H E p1) as (Ho & He & Hp & Ht).
  cbv zeta in Ho, He, Hp, Ht.
  destruct (check_code2prompt_installed H E p1) as [r p2].
  cbn [fst snd] in *. subst r. cbn [fst snd].
  destruct (say_err_lines_spec not_installed_advice p2)
    as (H1 & _ & H3 & H4).
  cbv zeta in H1, H3, H4. rewrite H1, H3, H4, Ho, Hp, Ht.
  split; [reflexivity |]. split; [reflexivity |]. split; [reflexivity |].
  split; [| reflexivity].
  unfold not_installed_advice, lines_text. cbn [fold_left].
  unfold say_err. cbn [os err_stream]. rewrite He.
  rewrite !append_assoc. reflexivity.
Qed.

Lemma main_not_installed_witness :
  fst (main DemoHost.linux DemoHost.no_generator
         (DemoHost.args "https://github.com/acme/widget" None)
         (DemoHost.process None)) = SystemExit 1.
Proof.
  apply (main_not_installed DemoHost.linux DemoHost.no_generator
           (DemoHost.args "https://github.com/acme/widget" None)
           (DemoHost.process None)).
  reflexivity.
Defined.



(** X13: with the generator installed, an address that validation
    answers with false makes [main] end with [sys.exit(1)] after one
    line on standard error naming the address; nothing else happens
    after the installation check: no directory, no [git], nothing on
    standard output. *)
Theorem main_invalid_url H E args p :
  let c := check_code2prompt_installed H E (after_path_check H p) in
  fst c = Ok true ->
  _validate_github_url E (Cli.github_url args) = Ok false ->
  let p' := snd (main H E args p) in
  fst (main H E args p) = SystemExit 1
  /\ err_stream (os p')
     = err_stream (os (snd c))
       ++ ("Error: " ++ "Invalid GitHub repository URL: "
           ++ Cli.github_url args) ++ newline
  /\ out_stream (os p') = out_stream (os (snd c))
  /\ trace (os p') = trace (os (snd c))
  /\ fs (os p') = fs (os (snd c)).
Proof.
  intros c Hc Hv p'. subst p' c. rewrite main_equation.
  destruct (check_code2prompt_installed H E (after_path_check H p))
    as [r p2]. cbn [fst snd] in *. subst r.
  rewrite (scoped_generate_rejected _ _ _ _ _ _ Hv).
  cbn [fst snd]. repeat split.
Qed.

Lemma main_invalid_url_witness :
  fst (main DemoHost.linux Demo.quiet
         (DemoHost.args "https://gitlab.com/acme/widget" None)
         (DemoHost.process None)) = SystemExit 1.
Proof.
  apply (main_invalid_url DemoHost.linux Demo.quiet
           (DemoHost.args "https://gitlab.com/acme/widget" None)
           (DemoHost.process None)); reflexivity.
Defined.

(** X14: with the generator installed, an address that passes
    validation and a temporary directory made, [main] has the directory
    removed as the last thing it does to the disk, however it ends: by
    returning, by [sys.exit(1)] or by an uncaught exception.  The
    removal is best effort: when [main] ends, what lies beneath the
    directory and did not resist removal is gone, what is left there
    was there before and resisted, and the rest of the disk is as the
    request left it. *)
Theorem main_removes_temp_dir H E args p q :
  let c := check_code2prompt_installed H E (after_path_check H p) in
  let d := temp_path E (os (snd c)) in
  let m0 := {| self := __init__; world := os (snd c) |} in
  let before :=
    fs (world (snd (main_body E (Cli.github_url args) (Cli.subdirectory args)
                      (Cli.branch args) (options_of args) m0))) in
  let after := os (snd (main H E args p)) in
  fst c = Ok true ->
  _validate_github_url E (Cli.github_url args) = Ok true ->
  mkdtemp_error E (fs (os (snd c))) = None ->
  (Fs.beneath d q = true -> resists_removal E before q = false ->
   fs after q = false)
  /\ (Fs.beneath d q = true -> fs after q = true ->
      before q = true /\ resists_removal E before q = true)
  /\ (Fs.beneath d q = false -> fs after q = before q)
  /\ exists evs,
       trace after
       = (trace (os (snd c)) ++ EvMkdtemp d :: evs ++ [EvRmtree d])%list
       /\ forall p, ~ In (EvRmtree p) evs.
Proof.
  intros c d m0 before after Hc Hv Hk. subst after.
  destruct (main_after_scope H E args p Hc) as (Hfs & Htr & _).
  fold c in Hfs, Htr. rewrite Hfs, Htr.
  destruct (scoped_generate_valid E (Cli.github_url args)
              (Cli.subdirectory args) (Cli.branch args) (options_of args)
              (os (snd c)) Hv Hk) as (Hs & evs & Ht & Hno).
  fold d in Hs, Ht. fold m0 in Hs, Ht. fold before in Hs.
  rewrite Hs. cbn [snd log with_fs fs trace].
  split; [| split; [| split]].
  - intros Hq Hr. now apply remove_tree_gone.
  - intros Hq. now apply remove_tree_left.
  - intros Hq. now apply remove_tree_kept.
  - exists evs. split; [| exact Hno].
    rewrite Ht, <- app_assoc. reflexivity.
Qed.

Lemma main_removes_temp_dir_witness :
  fs (os (snd (main DemoHost.linux DemoHost.no_git
                 (DemoHost.args "https://github.com/acme/widget" None)
                 (DemoHost.process None))))
     "/tmp/repo2prompt_k3x9w2ab" = false.
Proof.
  apply (proj1 (main_removes_temp_dir DemoHost.linux DemoHost.no_git
                  (DemoHost.args "https://github.com/acme/widget" None)
                  (DemoHost.process None) "/tmp/repo2prompt_k3x9w2ab"
                  eq_refl eq_refl eq_refl)); reflexivity.
Defined.

(** A clone step that cannot get going, for want of a directory or of
    [git], ends the scope with its [OSError] and the caller's streams
    as they were. *)
Lemma scoped_generate_clone_not_started E url subdirectory branch o w msg :
  _validate_github_url E url = Ok true ->
  mkdtemp_error E (fs w) = Some msg
  \/ (mkdtemp_error E (fs w) = None
      /\ spawn E (clone_cmd url branch (temp_path E w))
           (Fs.mkdir (temp_path E w) (fs w)) = NotStarted msg) ->
  exists w',
    scoped_generate E url subdirectory branch o w = (Raise (OSError msg), w')
    /\ err_stream w' = err_stream w /\ out_stream w' = out_stream w.
Proof.
  intros Hv Hs. unfold scoped_generate, with_Repo2Prompt.
  rewrite main_body_equation, (generate_prompt_valid _ _ _ _ _ _ Hv).
  unfold bind at 1. rewrite clone_equation. cbv zeta. cbn [world].
  destruct Hs as [Hk | (Hk & Hs)]; rewrite Hk.
  - rewrite exit_unassigned by reflexivity.
    eexists. split; [reflexivity | split; reflexivity].
  - rewrite Hs.
    rewrite (exit_assigned _ _ (temp_path E w))
      by (cbn [self]; auto using temp_path_truthy).
    eexists. split; [reflexivity | split; reflexivity].
Qed.

(** X15: when the clone step cannot get going, because [git] cannot be
    started (or, before that, because no temporary directory can be
    made), the [OSError] is not turned into a clone error and not caught
    by [main]: it ends [main] uncaught, with nothing written to standard
    error or standard output. *)
Theorem main_git_not_started H E args p msg :
  let c := check_code2prompt_installed H E (after_path_check H p) in
  let d := temp_path E (os (snd c)) in
  fst c = Ok true ->
  _validate_github_url E (Cli.github_url args) = Ok true ->
  mkdtemp_error E (fs (os (snd c))) = Some msg
  \/ (mkdtemp_error E (fs (os (snd c))) = None
      /\ spawn E (clone_cmd (Cli.github_url args) (Cli.branch args) d)
           (Fs.mkdir d (fs (os (snd c)))) = NotStarted msg) ->
  fst (main H E args p) = Uncaught (OSError msg)
  /\ err_stream (os (snd (main H E args p))) = err_stream (os (snd c))
  /\ out_stream (os (snd (main H E args p))) = out_stream (os (snd c)).
Proof.
  intros c d Hc Hv Hs. subst c d. rewrite main_equation.
  destruct (check_code2prompt_installed H E (after_path_check H p))
    as [r p2]. cbn [fst snd] in *. subst r.
  destruct (scoped_generate_clone_not_started E (Cli.github_url args)
              (Cli.subdirectory args) (Cli.branch args) (options_of args)
              (os p2) msg Hv Hs) as (w' & -> & He & Ho).
  cbn [fst snd os]. auto.
Qed.

Lemma main_git_not_started_witness :
  fst (main DemoHost.linux DemoHost.no_git
         (DemoHost.args "https://github.com/acme/widget" None)
         (DemoHost.process None))
  = Uncaught (OSError "[Errno 2] No such file or directory: 'git'").
Proof.
  apply (main_git_not_started DemoHost.linux DemoHost.no_git
           (DemoHost.args "https://github.com/acme/widget" None)
           (DemoHost.process None)); [reflexivity | reflexivity |].
  right. split; reflexivity.
Defined.

(** X16: [main] returns, that is, the exit code is zero, only if the
    probe, [git] and [code2prompt] were all started and all exited with
    zero. *)
Theorem main_returned H E args p :
  fst (main H E args p) = Returned ->
  let p1 := after_path_check H p in
  let p2 := snd (check_code2prompt_installed H E p1) in
  let d := temp_path E (os p2) in
  (exists out err f, spawn E version_probe (fs (os p1)) = Exited 0 out err f)
  /\ exists out1 err1 f1,
       spawn E (clone_cmd (Cli.github_url args) (Cli.branch args) d)
         (Fs.mkdir d (fs (os p2))) = Exited 0 out1 err1 f1
       /\ exists target out2 err2 f2,
            spawn E (final_cmd target (options_of args)) f1
            = Exited 0 out2 err2 f2.
Proof.
  rewrite main_equation. intros Hm p1 p2 d. subst p2 d.
  pose proof (installation_check_cases H E p1) as (Hinst & _).
  cbv zeta in Hinst. fold p1 in Hm.
  destruct (check_code2prompt_installed H E p1) as [[[|] | e0] p2];
    cbn [fst snd] in *; try discriminate.
  split.
  { destruct (proj1 Hinst eq_refl) as (out & err & f & _ & _ & Hs & _).
    eauto. }
  pose proof (scoped_outcome E (Cli.github_url args)
                (Cli.subdirectory args) (Cli.branch args)
                (options_of args) (os p2)) as Hout.
  destruct (scoped_generate E _ _ _ _ (os p2)) as [r w]. cbn [fst] in Hout.
  destruct (generate_prompt E _ _ _ _ _) as [r0 m1] eqn:Hg.
  cbn [fst] in Hout. subst r0.
  destruct r as [v | []]; cbn [fst] in Hm; try discriminate.
  apply generate_prompt_ok_inv in Hg. cbv zeta in Hg. cbn [world] in Hg.
  destruct Hg as (_ & _ & out1 & err1 & f1 & Hgit & _
                  & target & out2 & err2 & f2 & Hgen & _).
  eauto 10.
Qed.

Lemma main_returned_witness :
  exists out err f,
    spawn Demo.quiet version_probe (fs (os (DemoHost.process None)))
    = Exited 0 out err f.
Proof.
  apply (main_returned DemoHost.linux Demo.quiet
           (DemoHost.args "https://github.com/acme/widget" None)
           (DemoHost.process None)).
  reflexivity.
Defined.

(** X17: off Windows the path check is a no-operation, and on every
    platform what [main] leaves in [PATH] is what the path check left:
    neither the installation check nor the request touches it. *)
Theorem main_and_PATH H E args p :
  environ_PATH (snd (main H E args p))
  = environ_PATH (after_path_check H p)
  /\ (is_windows H = false -> after_path_check H p = p).
Proof.
  split.
  - rewrite main_equation.
    pose proof (installation_check_facts H E (after_path_check H p))
      as (_ & _ & Hp & _). cbv zeta in Hp.
    destruct (check_code2prompt_installed H E (after_path_check H p))
      as [[[|] | e0] p2]; cbn [fst snd] in *.
    + destruct (scoped_generate E _ _ _ _ (os p2)) as [[v | []] w];
        cbn [snd environ_PATH say_err]; exact Hp.
    + destruct (say_err_lines_spec not_installed_advice p2) as (H1 & _).
      cbv zeta in H1. now rewrite H1.
    + exact Hp.
  - intros Hw. unfold after_path_check, check_path_env. now rewrite Hw.
Qed.

Lemma main_and_PATH_witness :
  after_path_check DemoHost.linux (DemoHost.process (Some "/usr/bin"))
  = DemoHost.process (Some "/usr/bin").
Proof.
  apply (proj2 (main_and_PATH DemoHost.linux Demo.quiet
                  (DemoHost.args "https://github.com/acme/widget" None)
                  (DemoHost.process (Some "/usr/bin")))).
  reflexivity.
Defined.

(** ** The scope, for any body *)

(** X18: what [with Repo2Prompt() as r2p: body] adds to any body.  The
    outcome is the body's, whatever becomes of the removal: [__exit__]
    swallows its errors and returns [None].  If the body left a
    non-empty path in [temp_dir], the removal of that tree is the last
    thing done: what lies beneath the path and does not resist is gone,
    what is left there was there and resisted, the rest of the disk and
    the caller's streams are as the body left them.  If the body left
    no path, or the empty string, leaving the scope changes nothing. *)
Theorem with_Repo2Prompt_guard {A} E (body : M A) w :
  let run := body {| self := __init__; world := w |} in
  let w1 := world (snd run) in
  let w' := snd (with_Repo2Prompt E body w) in
  fst (with_Repo2Prompt E body w) = fst run
  /\ match temp_dir (self (snd run)) with
     | Some d =>
         if String.eqb d "" then w' = w1
         else
           (forall q, Fs.beneath d q = true ->
                      resists_removal E (fs w1) q = false ->
                      fs w' q = false)
           /\ (forall q, Fs.beneath d q = true -> fs w' q = true ->
                         fs w1 q = true
                         /\ resists_removal E (fs w1) q = true)
           /\ (forall q, Fs.beneath d q = false -> fs w' q = fs w1 q)
           /\ trace w' = (trace w1 ++ [EvRmtree d])%list
           /\ out_stream w' = out_stream w1
           /\ err_stream w' = err_stream w1
     | None => w' = w1
     end.
Proof.
  cbv zeta. unfold with_Repo2Prompt.
  destruct (body {| self := __init__; world := w |}) as [r m1].
  cbn [fst snd]. unfold __exit__.
  destruct (temp_dir (self m1)) as [d |]; [| split; reflexivity].
  unfold Py.truthy_str. destruct (String.eqb d ""); cbn [negb];
    [split; reflexivity |].
  cbn [rmtree on_world fst snd world log with_fs fs trace
       out_stream err_stream].
  split; [reflexivity |].
  split; [| split; [| split; [| repeat split]]].
  - intros q Hq Hr. now apply remove_tree_gone.
  - intros q Hq. now apply remove_tree_left.
  - intros q Hq. now apply remove_tree_kept.
Qed.

Lemma with_Repo2Prompt_guard_witness :
  fs (snd (with_Repo2Prompt Demo.quiet
             (generate_prompt Demo.quiet "https://github.com/acme/widget"
                None None no_options) Demo.world0))
     "/tmp/repo2prompt_k3x9w2ab/src" = false.
Proof.
  pose proof (proj2 (with_Repo2Prompt_guard Demo.quiet
                       (generate_prompt Demo.quiet
                          "https://github.com/acme/widget"
                          None None no_options) Demo.world0)) as Hguard.
  apply (proj1 Hguard); reflexivity.
Defined.

(** ** Using one object for two requests *)



(** ** Subdirectories outside the clone *)

(** X20: on a POSIX platform, where [os.path.join] is the [join] of
    [posixpath], a subdirectory that starts with a slash is looked up
    where it says, not inside the clone: the result is that very path
    when it exists.  Any other non-empty subdirectory resolves, under a
    non-empty root, to a path that starts with the root. *)
Theorem absolute_subdirectory_leaves_the_clone base_dir sub m :
  (OsPath.startswith_sep sub = true ->
   fst (_get_subdirectory_path base_dir (Some sub) m)
   = if fs (world m) sub then Ok sub
     else Raise (ValueError ("Subdirectory '" ++ sub
                             ++ "' does not exist in the repository")))
  /\ (OsPath.startswith_sep sub = false -> sub <> "" -> base_dir <> "" ->
      forall p, fst (_get_subdirectory_path base_dir (Some sub) m) = Ok p ->
                String.prefix base_dir p = true).
Proof.
  rewrite subdirectory_equation. split.
  - intros Hs. destruct sub as [| c sub]; [discriminate |].
    cbn [String.eqb]. unfold OsPath.join. rewrite Hs. reflexivity.
  - intros Hs Hne Hb p. apply String.eqb_neq in Hne, Hb. rewrite Hne.
    unfold OsPath.join. rewrite Hs, Hb. cbn [orb fst].
    destruct (OsPath.endswith_sep base_dir);
      (destruct (fs (world m) _); [| discriminate]);
      intros Hp; injection Hp as <-; apply prefix_append.
Qed.

Lemma absolute_subdirectory_leaves_the_clone_witness :
  fst (_get_subdirectory_path "/tmp/repo2prompt_k3x9w2ab"
         (Some "/home/ada/.ssh")
         {| self := __init__;
            world := with_fs (String.eqb "/home/ada/.ssh") Demo.world0 |})
  = Ok "/home/ada/.ssh".
Proof.
  apply (proj1 (absolute_subdirectory_leaves_the_clone
                  "/tmp/repo2prompt_k3x9w2ab" "/home/ada/.ssh"
                  {| self := __init__;
                     world := with_fs (String.eqb "/home/ada/.ssh")
                                Demo.world0 |})).
  reflexivity.
Defined.

(** ** Glob arguments from the command line *)

(** X21: a non-empty [--include] or [--exclude] argument reaches the
    generator's command line as the same text after the same flag;
    an argument that is missing or empty adds nothing. *)
Theorem cli_globs flag arg :
  (forall s, arg = Some s -> s <> "" ->
             extend_globs flag (split_globs arg) = [flag; s])
  /\ (arg = None \/ arg = Some "" ->
      extend_globs flag (split_globs arg) = []).
Proof.
  split.
  - intros s -> Hne. now apply cli_globs_pass_through.
  - intros [-> | ->]; reflexivity.
Qed.

Lemma cli_globs_witness :
  extend_globs "--include" (split_globs (Some "*.py,,src/*.md"))
  = ["--include"; "*.py,,src/*.md"].
Proof.
  apply (proj1 (cli_globs "--include" (Some "*.py,,src/*.md"))
           "*.py,,src/*.md" eq_refl).
  discriminate.
Defined.

(** ** The scheme of the address *)

Lemma scheme_char_plain c :
  Urllib.scheme_char c = true ->
  Urllib.unsafe_url_byte c = false
  /\ Urllib.c0_control_or_space c = false
  /\ Ascii.eqb ":" c = false.
Proof.
  destruct c as [b0 b1 b2 b3 b4 b5 b6 b7].
  destruct b0, b1, b2, b3, b4, b5, b6, b7; vm_compute;
    intros H; try discriminate H; repeat split.
Qed.

Lemma alpha_is_scheme_char c :
  Py.is_ascii_alpha c = true -> Urllib.scheme_char c = true.
Proof. unfold Urllib.scheme_char. now intros ->. Qed.

Lemma remove_append p a b :
  Py.remove p (a ++ b) = Py.remove p a ++ Py.remove p b.
Proof.
  induction a as [| c a IH]; [reflexivity |].
  cbn [append Py.remove]. rewrite IH. now destruct (p c).
Qed.

Lemma remove_scheme_chars s :
  Py.forallb Urllib.scheme_char s = true ->
  Py.remove Urllib.unsafe_url_byte s = s.
Proof.
  induction s as [| c s IH]; [reflexivity |]. cbn [Py.forallb Py.remove].
  intros H. apply andb_prop in H. destruct H as [Hc Hs].
  destruct (scheme_char_plain c Hc) as (-> & _). now rewrite (IH Hs).
Qed.

Lemma scheme_chars_no_colon s :
  Py.forallb Urllib.scheme_char s = true -> Py.contains ":" s = false.
Proof.
  induction s as [| c s IH]; [reflexivity |]. cbn [Py.forallb].
  intros H. apply andb_prop in H. destruct H as [Hc Hs].
  destruct (scheme_char_plain c Hc) as (_ & _ & Hcolon).
  apply contains_false_cons; auto.
Qed.

Lemma index_of_append c a b :
  Py.contains c a = false ->
  Py.index_of c (a ++ String c b) = Some (String.length a).
Proof.
  induction a as [| d a IH]; intros H.
  - cbn. now rewrite Ascii.eqb_refl.
  - apply contains_cons in H. destruct H as [Hd Ha].
    cbn [append Py.index_of String.length]. now rewrite Hd, (IH Ha).
Qed.

(** A well-formed scheme is split off at its colon. *)
Lemma split_scheme_append c s rest :
  Py.is_ascii_alpha c = true ->
  Py.forallb Urllib.scheme_char (String c s) = true ->
  Urllib.split_scheme (String c s ++ String ":" rest)
  = (Py.lower (String c s), rest).
Proof.
  intros Hc Hs. unfold Urllib.split_scheme, Py.find.
  change (Z.to_nat 0) with 0%nat. cbn [Py.drop].
  rewrite (index_of_append _ _ _ (scheme_chars_no_colon _ Hs)).
  cbn [append]. rewrite Hc.
  change (String c (s ++ String ":" rest))
    with (String c s ++ String ":" rest).
  assert (Hpos : (0 <? 0 + Z.of_nat (String.length (String c s))) = true)
    by (apply Z.ltb_lt; cbn [String.length]; lia).
  rewrite Hpos. unfold Py.slice. change (Z.to_nat 0) with 0%nat.
  cbn [Py.drop].
  replace (Z.to_nat (0 + Z.of_nat (String.length (String c s)) - 0))
    with (String.length (String c s)) by lia.
  rewrite take_app_length, Hs. cbn [andb].
  replace (Z.to_nat (0 + Z.of_nat (String.length (String c s)) + 1))
    with (S (String.length (String c s))) by lia.
  f_equal.
  change (Py.drop (S (String.length (String c s)))
            (String c s ++ String ":" rest))
    with (Py.drop (S (String.length s)) (s ++ String ":" rest)).
  clear. induction s as [| d s IH]; [reflexivity | exact IH].
Qed.

(** X22: [_validate_github_url] does not look at the scheme.  Whatever
    well-formed scheme stands before [://github.com/] or
    [://www.github.com/], and whatever follows, the address is
    accepted. *)
Theorem validate_ignores_scheme E c s rest :
  Py.is_ascii_alpha c = true ->
  Py.forallb Urllib.scheme_char (String c s) = true ->
  _validate_github_url E (String c s ++ "://github.com/" ++ rest) = Ok true
  /\ _validate_github_url E (String c s ++ "://www.github.com/" ++ rest)
     = Ok true.
Proof.
  intros Hc Hs.
  destruct (scheme_char_plain c (alpha_is_scheme_char c Hc)) as (_ & H0 & _).
  assert (Hauth : forall host,
             authority (String c s ++ String ":" ("//" ++ host ++ "/" ++ rest))
             = (let u := "//" ++ Py.remove Urllib.unsafe_url_byte
                                   (host ++ "/" ++ rest) in
                if String.eqb (Py.take 2 u) "//"
                then Some (Py.take (authority_len (Py.drop 2 u)) (Py.drop 2 u))
                else None)).
  { intros host. unfold authority, after_scheme, cleaned.
    cbn [append Py.lstrip]. rewrite H0.
    change (String c (s ++ String ":" (String "/" (String "/"
                                         (host ++ String "/" rest)))))
      with (String c s ++ String ":" ("//" ++ host ++ "/" ++ rest)).
    rewrite remove_append, (remove_scheme_chars _ Hs).
    change (Py.remove Urllib.unsafe_url_byte
              (String ":" ("//" ++ host ++ "/" ++ rest)))
      with (String ":" ("//" ++ Py.remove Urllib.unsafe_url_byte
                                  (host ++ "/" ++ rest))).
    now rewrite (split_scheme_append c s _ Hc Hs). }
  split; apply validate_authority; [left | right].
  - change (String c s ++ "://github.com/" ++ rest)
      with (String c s ++ String ":" ("//" ++ "github.com" ++ "/" ++ rest)).
    rewrite Hauth. reflexivity.
  - change (String c s ++ "://www.github.com/" ++ rest)
      with (String c s ++ String ":" ("//" ++ "www.github.com" ++ "/" ++ rest)).
    rewrite Hauth. reflexivity.
Qed.

Lemma validate_ignores_scheme_witness :
  _validate_github_url Demo.quiet ("file" ++ "://github.com/" ++ "etc/passwd")
  = Ok true.
Proof.
  apply (proj1 (validate_ignores_scheme Demo.quiet "f" "ile" "etc/passwd"
                  eq_refl eq_refl)).
Defined.

(** ** White space in the address *)

Lemma unsafe_is_c0 c :
  Urllib.unsafe_url_byte c = true -> Urllib.c0_control_or_space c = true.
Proof.
  destruct c as [b0 b1 b2 b3 b4 b5 b6 b7].
  destruct b0, b1, b2, b3, b4, b5, b6, b7; vm_compute;
    intros H; try discriminate H; reflexivity.
Qed.

Lemma cleaned_leading ws url :
  Py.forallb Urllib.c0_control_or_space ws = true ->
  cleaned (ws ++ url) = cleaned url.
Proof.
  unfold cleaned. induction ws as [| c ws IH]; [reflexivity |].
  cbn [Py.forallb append Py.lstrip]. intros H.
  apply andb_prop in H. destruct H as [-> Hws]. exact (IH Hws).
Qed.

Lemma cleaned_embedded a c b :
  Urllib.unsafe_url_byte c = true ->
  cleaned (a ++ String c b) = cleaned (a ++ b).
Proof.
  intros Hc. unfold cleaned. induction a as [| d a IH].
  - cbn [append Py.lstrip]. now rewrite (unsafe_is_c0 c Hc).
  - cbn [append Py.lstrip].
    destruct (Urllib.c0_control_or_space d); [exact IH |].
    cbn [Py.remove]. rewrite !remove_append. cbn [Py.remove].
    now rewrite Hc.
Qed.

Lemma validate_of_cleaned E url url' :
  cleaned url = cleaned url' ->
  _validate_github_url E url = _validate_github_url E url'.
Proof.
  intros H. unfold _validate_github_url, Urllib.urlparse, Urllib.urlsplit.
  change (Py.remove Urllib.unsafe_url_byte
            (Py.lstrip Urllib.c0_control_or_space url)) with (cleaned url).
  change (Py.remove Urllib.unsafe_url_byte
            (Py.lstrip Urllib.c0_control_or_space url')) with (cleaned url').
  now rewrite H.
Qed.

(** X23: validation reads the address through [urlparse], which drops
    leading spaces and control characters and every tab, carriage
    return and line feed; so an address with such characters is
    answered exactly like the address without them. *)
Theorem validate_ignores_white_space E :
  (forall ws url,
     Py.forallb Urllib.c0_control_or_space ws = true ->
     _validate_github_url E (ws ++ url) = _validate_github_url E url)
  /\ (forall a c b,
        Urllib.unsafe_url_byte c = true ->
        _validate_github_url E (a ++ String c b)
        = _validate_github_url E (a ++ b)).
Proof.
  split.
  - intros ws url H. apply validate_of_cleaned. now apply cleaned_leading.
  - intros a c b H. apply validate_of_cleaned. now apply cleaned_embedded.
Qed.

Lemma validate_ignores_white_space_witness :
  _validate_github_url Demo.quiet
    ("https://git" ++ String "010" "hub.com/acme/widget")
  = _validate_github_url Demo.quiet ("https://git" ++ "hub.com/acme/widget").
Proof.
  apply (proj2 (validate_ignores_white_space Demo.quiet)
           "https://git" "010"%char "hub.com/acme/widget").
  reflexivity.
Defined.

(** ** What [main] prints of the result *)

(** X24: when the request produces a result, [main] returns; the
    result is printed, as [json.dumps] renders it, exactly when JSON
    was asked for, and it is printed before the directory is removed,
    which is the last thing done. *)
Theorem main_prints_result H E args p v m1 :
  let c := check_code2prompt_installed H E (after_path_check H p) in
  fst c = Ok true ->
  generate_prompt E (Cli.github_url args) (Cli.subdirectory args)
    (Cli.branch args) (options_of args)
    {| self := __init__; world := os (snd c) |} = (Ok v, m1) ->
  let p' := snd (main H E args p) in
  let json := wants_json (options_of args) in
  fst (main H E args p) = Returned
  /\ out_stream (os p')
     = (if json then out_stream (world m1) ++ json_dumps E v ++ newline
        else out_stream (world m1))
  /\ trace (os p')
     = (trace (world m1)
        ++ (if json then [EvPrint (json_dumps E v)] else [])
        ++ [EvRmtree (temp_path E (os (snd c)))])%list
  /\ err_stream (os p') = err_stream (world m1).
Proof.
  intros c Hc Hg p' json. subst p' c json. rewrite main_equation.
  destruct (check_code2prompt_installed H E (after_path_check H p))
    as [r p2]. cbn [fst snd] in *. subst r.
  pose proof (generate_prompt_ok_inv _ _ _ _ _ _ _ _ Hg) as (Hv & Hk & _).
  destruct (generate_prompt_valid_run _ _ _ _ _ _ _ _ Hv Hk Hg) as (Hd & _).
  cbn [world] in Hd.
  unfold scoped_generate, with_Repo2Prompt.
  rewrite main_body_equation, Hg.
  destruct (wants_json (options_of args));
    rewrite (exit_assigned _ _ (temp_path E (os p2)))
      by (cbn [self]; auto using temp_path_truthy);
    cbn [fst snd os world log with_fs trace out_stream err_stream];
    repeat split; rewrite <- ?app_assoc; reflexivity.
Qed.

Lemma main_prints_result_witness :
  fst (main DemoHost.linux (Demo.env 0 0 Demo.status_text "")
         (DemoHost.args "https://github.com/acme/widget" (Some "json"))
         (DemoHost.process None)) = Returned.
Proof.
  apply (main_prints_result DemoHost.linux (Demo.env 0 0 Demo.status_text "")
           (DemoHost.args "https://github.com/acme/widget" (Some "json"))
           (DemoHost.process None) _ _ eq_refl eq_refl).
Defined.
